(** * Claims ingestion pipeline: normalizer and eligibility classifier

    A shallow embedding of [src/pipe.py]:
    - [mock_llm_classifier]           (lines 15-30),
    - [normalize_record]              (lines 34-83),
    - [is_eligible_for_resubmission]  (lines 87-118),
    together with the fragments of the Python runtime these three functions
    call: truthiness, [str()], [pd.isna], [str.lower], [str.strip],
    [str.replace], the [in] operator on strings, [dict.get], and from the
    [datetime] module [datetime.fromisoformat], [datetime.strptime],
    [date.isoformat] and date subtraction.

    Modelling conventions.
    - A raw record is a Python [dict] with string keys: a [gmap string value].
    - Record values are the scalars that [json.loads] and
      [pandas.read_csv] produce: [None], strings, integers, booleans and the
      float NaN (what pandas puts into an empty CSV cell). Finite floats and
      nested JSON lists and objects are left out.
    - Strings are sequences of 8-bit characters; [lower] and [strip] are the
      Python methods on ASCII text, and a character outside ASCII is kept
      as it is.
    - A function that may raise returns a [result]; the log of
      [logging.warning] calls is returned next to the result. *)

From Stdlib Require Import ZArith Lia Ascii String List Bool DecimalString.
From stdpp Require Import gmap strings.

Open Scope string_scope.
Open Scope Z_scope.

(** ** Python values and exceptions *)

Module Py.

(** Scalar values a raw record can hold. *)
Inductive value : Type :=
| VNone
| VStr (s : string)
| VInt (z : Z)
| VBool (b : bool)
| VNaN.

Inductive exn : Type := ValueError | TypeError.

Inductive result (A : Type) : Type :=
| Ok (a : A)
| Raise (e : exn).
Arguments Ok {A} a.
Arguments Raise {A} e.

Definition bind {A B} (r : result A) (k : A -> result B) : result B :=
  match r with
  | Ok a => k a
  | Raise e => Raise e
  end.

(** [bool(v)]: [None], [""], [0] and [False] are falsy; NaN is truthy. *)
Definition truthy (v : value) : bool :=
  match v with
  | VNone => false
  | VStr s => negb (bool_decide (s = ""))
  | VInt z => negb (z =? 0)
  | VBool b => b
  | VNaN => true
  end.

(** [a or b] *)
Definition por (a b : value) : value := if truthy a then a else b.

(** [pd.isna(v)] on a scalar. *)
Definition isna (v : value) : bool :=
  match v with
  | VNone | VNaN => true
  | _ => false
  end.

(** [v is None] *)
Definition is_none (v : value) : bool :=
  match v with VNone => true | _ => false end.

(** [isinstance(v, str)] *)
Definition is_str (v : value) : bool :=
  match v with VStr _ => true | _ => false end.

(** [str(v)] *)
Definition str (v : value) : string :=
  match v with
  | VNone => "None"
  | VStr s => s
  | VInt z => NilZero.string_of_int (Z.to_int z)
  | VBool true => "True"
  | VBool false => "False"
  | VNaN => "nan"
  end.

(** [d.get(k)] and [d.get(k, default)] *)
Definition get (d : gmap string value) (k : string) : value :=
  match d !! k with Some v => v | None => VNone end.

Definition get_default (d : gmap string value) (k : string) (dflt : value)
  : value :=
  match d !! k with Some v => v | None => dflt end.

(** *** String methods *)

Definition code (c : ascii) : Z := Z.of_N (N_of_ascii c).

Definition lower_char (c : ascii) : ascii :=
  if (65 <=? code c) && (code c <=? 90)
  then ascii_of_N (Z.to_N (code c + 32))
  else c.

(** [s.lower()] *)
Fixpoint lower (s : string) : string :=
  match s with
  | EmptyString => EmptyString
  | String c s' => String (lower_char c) (lower s')
  end.

(** The characters [str.strip()] removes: TAB, LF, VT, FF, CR, the four
    separators FS, GS, RS, US, and the space. *)
Definition is_space (c : ascii) : bool :=
  ((9 <=? code c) && (code c <=? 13))
  || ((28 <=? code c) && (code c <=? 32)).

Fixpoint lstrip (s : string) : string :=
  match s with
  | EmptyString => EmptyString
  | String c s' => if is_space c then lstrip s' else s
  end.

Fixpoint rstrip (s : string) : string :=
  match s with
  | EmptyString => EmptyString
  | String c s' =>
      match rstrip s' with
      | EmptyString => if is_space c then EmptyString else String c EmptyString
      | r => String c r
      end
  end.

(** [s.strip()] *)
Definition strip (s : string) : string := rstrip (lstrip s).

(** [sub in s] *)
Fixpoint contains (sub s : string) : bool :=
  String.prefix sub s
  || match s with
     | EmptyString => false
     | String _ s' => contains sub s'
     end.

(** [s.replace(old, new)] for a one-character [old]. *)
Fixpoint replace (old : ascii) (new : string) (s : string) : string :=
  match s with
  | EmptyString => EmptyString
  | String c s' =>
      if bool_decide (c = old) then new +:+ replace old new s'
      else String c (replace old new s')
  end.

End Py.
Import Py.

#[global] Instance result_bind : MBind result := fun A B k r => bind r k.
#[global] Instance result_fmap : FMap result :=
  fun A B f r => bind r (fun a => Ok (f a)).

(** ** The [datetime] module

    Calendar dates are proleptic Gregorian, years 1..9999, as in Python.
    [fromisoformat] follows the format CPython 3.7-3.10 documents for
    [datetime.fromisoformat]:
    [YYYY-MM-DD[*HH[:MM[:SS[.fff[fff]]]][+HH:MM[:SS[.ffffff]]]]],
    where [*] is any single character. [strptime] is
    [datetime.strptime(s, "%Y-%m-%d")], that is, a match of the regular
    expression
    [(\d\d\d\d)-(1[0-2]|0[1-9]|[1-9])-(3[01]|[12]\d|0[1-9]|[1-9]| [1-9])]
    that consumes the whole string. Both raise [ValueError] on any string
    they reject. Later CPython versions accept more spellings of a
    timestamp; what the properties below use holds there too: an accepted
    string yields a valid date, and the [isoformat] text of a date parses
    back to that date. *)

Module Datetime.

Record date : Type := mkdate { year : Z; month : Z; day : Z }.

Record datetime : Type := mkdatetime {
  dt_date : date;                (* what [.date()] returns *)
  hour : Z; minute : Z; second : Z; microsecond : Z;
  utcoffset : option Z           (* microseconds; [None] when naive *)
}.

Definition is_leap (y : Z) : bool :=
  (y mod 4 =? 0) && (negb (y mod 100 =? 0) || (y mod 400 =? 0)).

Definition days_in_month (y m : Z) : Z :=
  if m =? 2 then (if is_leap y then 29 else 28)
  else if (m =? 4) || (m =? 6) || (m =? 9) || (m =? 11) then 30
  else 31.

(** The check the [date] constructor performs. *)
Definition valid_date (d : date) : bool :=
  (1 <=? year d) && (year d <=? 9999)
  && (1 <=? month d) && (month d <=? 12)
  && (1 <=? day d) && (day d <=? days_in_month (year d) (month d)).

Definition days_before_year (y : Z) : Z :=
  let y := y - 1 in y * 365 + y / 4 - y / 100 + y / 400.

Definition DAYS_BEFORE_MONTH : list Z :=
  [-1; 0; 31; 59; 90; 120; 151; 181; 212; 243; 273; 304; 334].

Definition days_before_month (y m : Z) : Z :=
  nth (Z.to_nat m) DAYS_BEFORE_MONTH 0
  + (if (2 <? m) && is_leap y then 1 else 0).

(** [d.toordinal()] *)
Definition toordinal (d : date) : Z :=
  days_before_year (year d) + days_before_month (year d) (month d) + day d.

(** [(a - b).days] *)
Definition days_between (a b : date) : Z := toordinal a - toordinal b.

(** *** Formatting *)

Definition digit (z : Z) : ascii := ascii_of_N (Z.to_N (48 + z)).

Definition pad2 (z : Z) : string :=
  String (digit (z / 10)) (String (digit (z mod 10)) EmptyString).

Definition pad4 (z : Z) : string :=
  String (digit (z / 1000))
    (String (digit (z / 100 mod 10)) (pad2 (z mod 100))).

(** [d.isoformat()], that is ["%04d-%02d-%02d" % (year, month, day)]. *)
Definition isoformat (d : date) : string :=
  pad4 (year d) +:+ "-" +:+ pad2 (month d) +:+ "-" +:+ pad2 (day d).

(** *** Parsing *)

(** The value of a decimal digit between [lo] and [hi]. *)
Definition digit_in (lo hi : Z) (c : ascii) : option Z :=
  let v := code c - 48 in
  if (lo <=? v) && (v <=? hi) then Some v else None.

Definition digit_val : ascii -> option Z := digit_in 0 9.

Definition num2 (c1 c2 : ascii) : option Z :=
  a ← digit_val c1; b ← digit_val c2; Some (10 * a + b).

Fixpoint digits_from (acc : Z) (s : string) : option Z :=
  match s with
  | EmptyString => Some acc
  | String c s' => v ← digit_val c; digits_from (10 * acc + v) s'
  end.

(** [YYYY-MM-DD], exactly ten characters. *)
Definition parse_isoformat_date (y1 y2 y3 y4 s1 m1 m2 s2 d1 d2 : ascii)
  : option (Z * Z * Z) :=
  a ← num2 y1 y2; b ← num2 y3 y4; m ← num2 m1 m2; d ← num2 d1 d2;
  if bool_decide (s1 = "-"%char) && bool_decide (s2 = "-"%char)
  then Some (100 * a + b, m, d) else None.

(** [.fff] or [.ffffff] after the seconds. *)
Definition parse_fraction (f : string) : option Z :=
  if (String.length f =? 3)%nat then us ← digits_from 0 f; Some (us * 1000)
  else if (String.length f =? 6)%nat then digits_from 0 f
  else None.

(** [HH[:MM[:SS[.fff[fff]]]]] *)
Definition parse_hh_mm_ss_ff (t : string) : option (Z * Z * Z * Z) :=
  match t with
  | String h1 (String h2 r) =>
      h ← num2 h1 h2;
      match r with
      | EmptyString => Some (h, 0, 0, 0)
      | String ":" (String m1 (String m2 r)) =>
          m ← num2 m1 m2;
          match r with
          | EmptyString => Some (h, m, 0, 0)
          | String ":" (String s1 (String s2 r)) =>
              s ← num2 s1 s2;
              match r with
              | EmptyString => Some (h, m, s, 0)
              | String "." f => us ← parse_fraction f; Some (h, m, s, us)
              | _ => None
              end
          | _ => None
          end
      | _ => None
      end
  | _ => None
  end.

(** Split at the first [+] or [-]: the time, then the sign and the
    offset text when there is one. *)
Fixpoint split_tz (t : string) : string * option (ascii * string) :=
  match t with
  | EmptyString => (EmptyString, None)
  | String c t' =>
      if bool_decide (c = "+"%char) || bool_decide (c = "-"%char)
      then (EmptyString, Some (c, t'))
      else let '(a, b) := split_tz t' in (String c a, b)
  end.

Definition DAY_US : Z := 86400 * 1000000.

(** The offset text [HH:MM], [HH:MM:SS] or [HH:MM:SS.ffffff], as signed
    microseconds; [timezone()] wants it strictly within one day. *)
Definition parse_tz (sign : ascii) (tz : string) : option Z :=
  let n := String.length tz in
  if (n =? 5)%nat || (n =? 8)%nat || (n =? 15)%nat then
    '(h, m, s, us) ← parse_hh_mm_ss_ff tz;
    let off := (h * 3600 + m * 60 + s) * 1000000 + us in
    if off <? DAY_US
    then Some (if bool_decide (sign = "-"%char) then - off else off)
    else None
  else None.

Definition parse_isoformat_time (t : string)
  : option (Z * Z * Z * Z * option Z) :=
  let '(timestr, tz) := split_tz t in
  '(h, m, s, us) ← parse_hh_mm_ss_ff timestr;
  if (h <? 24) && (m <? 60) && (s <? 60) then
    match tz with
    | None => Some (h, m, s, us, None)
    | Some (sign, tzstr) =>
        off ← parse_tz sign tzstr; Some (h, m, s, us, Some off)
    end
  else None.

Definition of_option {A} (o : option A) : result A :=
  match o with Some a => Ok a | None => Raise ValueError end.

(** The [datetime] constructor on parsed components. *)
Definition make_datetime (ymd : Z * Z * Z) (t : Z * Z * Z * Z * option Z)
  : result datetime :=
  let '(y, m, d) := ymd in
  let '(hh, mi, ss, us, tz) := t in
  if valid_date (mkdate y m d)
  then Ok (mkdatetime (mkdate y m d) hh mi ss us tz)
  else Raise ValueError.

(** [datetime.fromisoformat(s)] *)
Definition fromisoformat (s : string) : result datetime :=
  match s with
  | String y1 (String y2 (String y3 (String y4 (String s1
      (String m1 (String m2 (String s2 (String d1 (String d2 rest))))))))) =>
      ymd ← of_option (parse_isoformat_date y1 y2 y3 y4 s1 m1 m2 s2 d1 d2);
      t ← match rest with
          | EmptyString => Ok (0, 0, 0, 0, None)
          | String _ t => of_option (parse_isoformat_time t)
          end;
      make_datetime ymd t
  | _ => Raise ValueError
  end.

(** The month directive [%m]: [1[0-2]|0[1-9]|[1-9]]. *)
Definition parse_month (r : string) : option (Z * string) :=
  match r with
  | EmptyString => None
  | String c1 r1 =>
      let one := v ← digit_in 1 9 c1; Some (v, r1) in
      match r1 with
      | EmptyString => one
      | String c2 r2 =>
          match digit_in 1 1 c1, digit_in 0 2 c2 with
          | Some _, Some v => Some (10 + v, r2)
          | _, _ =>
              match digit_in 0 0 c1, digit_in 1 9 c2 with
              | Some _, Some v => Some (v, r2)
              | _, _ => one
              end
          end
      end
  end.

(** The day directive [%d]: [3[01]|[12]\d|0[1-9]|[1-9]| [1-9]]. *)
Definition parse_day (r : string) : option (Z * string) :=
  match r with
  | EmptyString => None
  | String c1 r1 =>
      let one := v ← digit_in 1 9 c1; Some (v, r1) in
      match r1 with
      | EmptyString => one
      | String c2 r2 =>
          match digit_in 3 3 c1, digit_in 0 1 c2 with
          | Some _, Some v => Some (30 + v, r2)
          | _, _ =>
              match digit_in 1 2 c1, digit_in 0 9 c2 with
              | Some u, Some v => Some (10 * u + v, r2)
              | _, _ =>
                  match digit_in 0 0 c1, digit_in 1 9 c2 with
                  | Some _, Some v => Some (v, r2)
                  | _, _ =>
                      match digit_in 1 9 c1 with
                      | Some v => Some (v, r1)
                      | None =>
                          if bool_decide (c1 = " "%char)
                          then v ← digit_in 1 9 c2; Some (v, r2)
                          else None
                      end
                  end
              end
          end
      end
  end.

(** [datetime.strptime(s, "%Y-%m-%d")]; text left over after the day is
    the "unconverted data remains" error. *)
Definition strptime (s : string) : result datetime :=
  match s with
  | String y1 (String y2 (String y3 (String y4 (String "-" r)))) =>
      of_option (
        a ← num2 y1 y2; b ← num2 y3 y4;
        '(m, r) ← parse_month r;
        match r with
        | String "-" r =>
            '(d, r) ← parse_day r;
            match r with
            | EmptyString => Some (100 * a + b, m, d)
            | _ => None
            end
        | _ => None
        end)
      ≫= fun ymd => make_datetime ymd (0, 0, 0, 0, None)
  | _ => Raise ValueError
  end.

End Datetime.
Import Datetime.

(** ** The pipeline core ([src/pipe.py]) *)

(** The unified schema: the dict [normalize_record] builds. The five text
    fields always hold a [str]; [submitted_at] holds whatever the date step
    leaves there. *)
Record NormalizedClaim : Type := mkclaim {
  claim_id : string;
  patient_id : string;
  procedure_code : string;
  denial_reason : string;
  status : string;
  submitted_at : value;
  source_system : string
}.

(** [normalized["submitted_at"] = v] *)
Definition set_submitted_at (c : NormalizedClaim) (v : value)
  : NormalizedClaim :=
  {| claim_id := claim_id c; patient_id := patient_id c;
     procedure_code := procedure_code c; denial_reason := denial_reason c;
     status := status c; submitted_at := v;
     source_system := source_system c |}.

(** [mock_llm_classifier] (lines 15-30): [true] when retryable. *)
Definition mock_llm_classifier (denial_reason : value) : bool :=
  if isna denial_reason then false
  else
    let reason_lower := lower (str denial_reason) in
    if contains "incorrect procedure" reason_lower then false
    else if contains "form incomplete" reason_lower then true
    else if contains "not billable" reason_lower then false
    else false.

(** The dict literal of lines 38-58. *)
Definition initial_claim (record : gmap string value) (source_system : string)
  : NormalizedClaim :=
  {| claim_id :=
       strip (str (por (get record "claim_id")
                       (get_default record "id" (VStr "unknown"))));
     patient_id :=
       strip (str (por (get record "patient_id")
                       (get_default record "member" (VStr "unknown"))));
     procedure_code :=
       strip (str (por (get record "procedure_code") (VStr "unknown")));
     denial_reason :=
       if negb (isna (por (get record "denial_reason")
                          (get record "error_msg")))
       then strip (str (por (get record "denial_reason")
                            (get_default record "error_msg" (VStr "unknown"))))
       else "unknown";
     status :=
       if negb (isna (get record "status"))
       then strip (lower (str (get_default record "status" (VStr "unknown"))))
       else "unknown";
     submitted_at := por (get record "submitted_at") (get record "date");
     source_system := source_system |}.

(** The body of the [try] of lines 61-76: the new value of
    [normalized["submitted_at"]]. *)
Definition normalize_date (raw : value) : result value :=
  match raw with
  | VStr s =>
      if contains "T" s then
        dt ← fromisoformat (replace "Z" "+00:00" s);
        Ok (VStr (isoformat (dt_date dt)))
      else
        dt ← strptime s;
        Ok (VStr (isoformat (dt_date dt)))
  | _ => Ok raw
  end.

(** The message of the [logging.warning] call of lines 78-80. *)
Definition date_warning (c : NormalizedClaim) : string :=
  "Invalid date format for claim " +:+ claim_id c +:+ ": "
  +:+ str (submitted_at c).

(** [normalize_record] (lines 34-83): the claim, or the exception that
    escapes, and the warnings logged. *)
Definition normalize_record (record : gmap string value)
    (source_system : string) : result NormalizedClaim * list string :=
  let normalized := initial_claim record source_system in
  match normalize_date (submitted_at normalized) with
  | Ok v => (Ok (set_submitted_at normalized v), [])
  | Raise ValueError =>
      (Ok (set_submitted_at normalized VNone), [date_warning normalized])
  | Raise e => (Raise e, [])
  end.

Definition retryable_reasons : gset string :=
  {[ "Missing modifier"; "Incorrect NPI"; "Prior auth required" ]}.

Definition non_retryable_reasons : gset string :=
  {[ "Authorization expired"; "Incorrect provider type" ]}.

(** Lines 108-118: the verdict once the four guards are passed. *)
Definition reason_verdict (reason : string) : bool * string :=
  if bool_decide (reason ∈ retryable_reasons) then (true, reason)
  else if bool_decide (reason ∈ non_retryable_reasons) then (false, reason)
  else if mock_llm_classifier (VStr reason)
       then (true, "Inferred retryable: " +:+ reason)
       else (false, "Inferred non-retryable: " +:+ reason).

(** [datetime.fromisoformat(v).date()] on a dict value: a [TypeError] when
    the value is not a [str]. *)
Definition fromisoformat_date (v : value) : result date :=
  match v with
  | VStr s => dt_date <$> fromisoformat s
  | _ => Raise TypeError
  end.

(** The default of the [today] parameter. *)
Definition default_today : date := mkdate 2025 7 30.

(** [is_eligible_for_resubmission] (lines 87-118). *)
Definition is_eligible_for_resubmission (record : NormalizedClaim)
    (today : date) : result (bool * string) :=
  if negb (bool_decide (status record = "denied"))
  then Ok (false, "Status not denied")
  else if bool_decide (patient_id record = "unknown")
  then Ok (false, "Patient ID is null")
  else if is_none (submitted_at record)
  then Ok (false, "Invalid submitted date")
  else
    submitted_date ← fromisoformat_date (submitted_at record);
    let days_ago := days_between today submitted_date in
    if days_ago <=? 7
    then Ok (false, "Submitted less than or equal to 7 days ago")
    else Ok (reason_verdict (denial_reason record)).

(** The field set of a normalized claim, read again as a raw record. *)
Definition as_record (c : NormalizedClaim) : gmap string value :=
  <[ "claim_id" := VStr (claim_id c) ]>
  (<[ "patient_id" := VStr (patient_id c) ]>
  (<[ "procedure_code" := VStr (procedure_code c) ]>
  (<[ "denial_reason" := VStr (denial_reason c) ]>
  (<[ "status" := VStr (status c) ]>
  (<[ "submitted_at" := submitted_at c ]>
  (<[ "source_system" := VStr (source_system c) ]> ∅)))))).

(** ** The driver ([run_pipeline], lines 122-196)

    The driver is modelled from the point where the two inputs have been
    parsed: [alpha_rows] are the dicts [row.to_dict()] yields for the rows
    of [pd.read_csv], [beta_list] the items of [json.loads]. What it logs
    is a list of events, what it writes a list of named files, each holding
    the object handed to [json.dump]. The text of an exception and the
    [repr] of a dict are not modelled: an error event and a failed record
    keep the record and the exception themselves. *)

(** The rows of [resubmission_candidates.json] and of the excluded list. *)
Record eligible_row : Type := mkeligible {
  e_claim_id : string;
  resubmission_reason : string;
  e_source_system : string;
  recommended_changes : string
}.

Record excluded_row : Type := mkexcluded {
  x_claim_id : string;
  exclusion_reason : string;
  x_source_system : string
}.

(** An entry of [failed_records]. *)
Record failed_record : Type := mkfailed {
  failed_source : string;
  failed_row : gmap string value;
  failed_error : exn
}.

Inductive log_event : Type :=
| LogWarning (msg : string)
| LogError (source : string) (row : gmap string value) (e : exn)
| LogInfo (msg : string).

Inductive file_content : Type :=
| EligibleJson (rows : list eligible_row)
| FailedJson (records : list failed_record).

(** The lists the two ingestion loops fill, and the log so far. *)
Record ingest_state : Type := mkstate {
  st_claims : list NormalizedClaim;
  st_failed : list failed_record;
  st_log : list log_event
}.

(** One turn of the loops of lines 131-139 and 143-149. *)
Definition ingest_one (source : string) (st : ingest_state)
    (row : gmap string value) : ingest_state :=
  match normalize_record row source with
  | (Ok normalized, warnings) =>
      {| st_claims := (st_claims st ++ [normalized])%list;
         st_failed := st_failed st;
         st_log := (st_log st ++ map LogWarning warnings)%list |}
  | (Raise e, warnings) =>
      {| st_claims := st_claims st;
         st_failed := (st_failed st ++ [mkfailed source row e])%list;
         st_log := (st_log st ++ map LogWarning warnings
                    ++ [LogError source row e])%list |}
  end.

Definition ingest (source : string) (rows : list (gmap string value))
    (st : ingest_state) : ingest_state :=
  fold_left (ingest_one source) rows st.

(** One turn of the loop of lines 154-172; the classifier is called with
    its default reference date, and what it raises is not caught. *)
Definition partition_one (acc : list eligible_row * list excluded_row)
    (claim : NormalizedClaim)
  : result (list eligible_row * list excluded_row) :=
  '(is_eligible, reason) ← is_eligible_for_resubmission claim default_today;
  if is_eligible : bool
  then Ok ((fst acc ++ [ {| e_claim_id := claim_id claim;
                            resubmission_reason := reason;
                            e_source_system := source_system claim;
                            recommended_changes :=
                              "Review and correct '" +:+ reason
                              +:+ "' and resubmit" |} ])%list,
           snd acc)
  else Ok (fst acc,
           (snd acc ++ [ {| x_claim_id := claim_id claim;
                            exclusion_reason := reason;
                            x_source_system := source_system claim |} ])%list).

Fixpoint partition_claims (claims : list NormalizedClaim)
    (acc : list eligible_row * list excluded_row)
  : result (list eligible_row * list excluded_row) :=
  match claims with
  | [] => Ok acc
  | claim :: rest =>
      acc' ← partition_one acc claim; partition_claims rest acc'
  end.

(** [sum(1 for c in claims if c["source_system"] == tag)] *)
Definition count_source (tag : string) (claims : list NormalizedClaim)
  : nat :=
  length (List.filter (fun c => bool_decide (source_system c = tag)) claims).

(** The f-string [f"{label}{n}"] for a count [n]. *)
Definition metric (label : string) (n : nat) : log_event :=
  LogInfo (label +:+ str (VInt (Z.of_nat n))).

(** What one run leaves behind. *)
Record pipeline_run : Type := mkrun {
  returned : result (list eligible_row);
  logged : list log_event;
  written : list (string * file_content)
}.

(** [run_pipeline] (lines 122-196) on parsed inputs. *)
Definition run_pipeline (alpha_rows beta_list : list (gmap string value))
  : pipeline_run :=
  let st := ingest "beta" beta_list
              (ingest "alpha" alpha_rows (mkstate [] [] [])) in
  let claims := st_claims st in
  let failed_records := st_failed st in
  match partition_claims claims ([], []) with
  | Raise e => {| returned := Raise e; logged := st_log st; written := [] |}
  | Ok (eligible, excluded) =>
      {| returned := Ok eligible;
         logged :=
           (st_log st
            ++ [ metric "Total claims processed: " (length claims);
                 metric "From alpha: " (count_source "alpha" claims);
                 metric "From beta: " (count_source "beta" claims);
                 metric "Flagged for resubmission: " (length eligible);
                 metric "Excluded: " (length excluded) ])%list;
         written :=
           ("resubmission_candidates.json", EligibleJson eligible)
           :: match failed_records with
              | [] => []
              | _ => [("rejection_log.json", FailedJson failed_records)]
              end |}
  end.

(** *** The sample batch of lines 200-240 *)

Definition alpha_row (cid pid code reason sub st : value)
  : gmap string value :=
  <[ "claim_id" := cid ]> (<[ "patient_id" := pid ]>
  (<[ "procedure_code" := code ]> (<[ "denial_reason" := reason ]>
  (<[ "submitted_at" := sub ]> (<[ "status" := st ]> ∅))))).

Definition beta_item (id member code err dt st : value)
  : gmap string value :=
  <[ "id" := id ]> (<[ "member" := member ]>
  (<[ "code" := code ]> (<[ "error_msg" := err ]>
  (<[ "date" := dt ]> (<[ "status" := st ]> ∅))))).

Definition A123 := alpha_row (VStr "A123") (VStr "P001") (VInt 99213)
  (VStr "Missing modifier") (VStr "2025-07-01") (VStr "denied").
Definition A125 := alpha_row (VStr "A125") VNaN (VInt 99215)
  (VStr "Authorization expired") (VStr "2025-07-05") (VStr "denied").
Definition B988 := beta_item (VStr "B988") (VStr "P011") (VStr "99214")
  (VStr "Missing modifier") (VStr "2025-07-09T00:00:00") (VStr "denied").
Definition B990 := beta_item (VStr "B990") VNone (VStr "99401")
  (VStr "incorrect procedure") (VStr "2025-07-01T00:00:00") (VStr "denied").

Definition A124 := alpha_row (VStr "A124") (VStr "P002") (VInt 99214)
  (VStr "Incorrect NPI") (VStr "2025-07-10") (VStr "denied").
Definition A126 := alpha_row (VStr "A126") (VStr "P003") (VInt 99381)
  VNaN (VStr "2025-07-15") (VStr "approved").
Definition A127 := alpha_row (VStr "A127") (VStr "P004") (VInt 99401)
  (VStr "Prior auth required") (VStr "2025-07-20") (VStr "denied").
Definition B987 := beta_item (VStr "B987") (VStr "P010") (VStr "99213")
  (VStr "Incorrect provider type") (VStr "2025-07-03T00:00:00")
  (VStr "denied").
Definition B989 := beta_item (VStr "B989") (VStr "P012") (VStr "99215")
  VNone (VStr "2025-07-10T00:00:00") (VStr "approved").

(** [alpha_csv] and [beta_json] as parsed. *)
Definition alpha_sample : list (gmap string value) :=
  [A123; A124; A125; A126; A127].
Definition beta_sample : list (gmap string value) :=
  [B987; B988; B989; B990].

(** ** Vocabulary of the claims *)

(** A string that [lstrip] leaves alone. *)
Definition no_leading_space (s : string) : Prop :=
  match s with
  | EmptyString => True
  | String c _ => is_space c = false
  end.

(** The [datetime] a bare date parses to. *)
Definition midnight (d : date) : datetime := mkdatetime d 0 0 0 0 None.

(** Rules 1-4 let the claim through: it is denied, the patient is known,
    and the submission date parses to a day more than a week before the
    reference date. *)
Definition passes_guards (c : NormalizedClaim) (today : date) : Prop :=
  status c = "denied" /\ patient_id c <> "unknown"
  /\ exists d, fromisoformat_date (submitted_at c) = Ok d
               /\ 7 < days_between today d.

(** A [submitted_at] as the spec's data model describes it: the ISO text of
    a calendar date, or null. *)
Definition iso_date_or_null (v : value) : Prop :=
  v = VNone \/ exists d, valid_date d = true /\ v = VStr (isoformat d).

Definition well_formed (c : NormalizedClaim) : Prop :=
  iso_date_or_null (submitted_at c).

(** The parse the date step applies to a source string: a timestamp when
    the text holds a [T], a bare date otherwise. *)
Definition parse_source_date (s : string) : result datetime :=
  if contains "T" s then fromisoformat (replace "Z" "+00:00" s)
  else strptime s.

(** Normalizing the field set of the claim a record normalizes to gives
    that claim again. *)
Definition renormalizes_to_itself (r : gmap string value) (src : string)
  : Prop :=
  exists c log log',
    normalize_record r src = (Ok c, log)
    /\ normalize_record (as_record c) src = (Ok c, log').

(** The fallback clauses read as the claim lists them, each on its own:
    "incorrect procedure" or "not billable" anywhere in the lower-cased
    reason gives non-retryable, "form incomplete" gives retryable, anything
    else non-retryable. *)
Definition fallback_clauses_as_listed (c : NormalizedClaim) (today : date)
  : Prop :=
  let reason := denial_reason c in
  let low := lower reason in
  ((contains "incorrect procedure" low = true
    \/ contains "not billable" low = true) ->
   is_eligible_for_resubmission c today
   = Ok (false, "Inferred non-retryable: " +:+ reason))
  /\ (contains "form incomplete" low = true ->
      is_eligible_for_resubmission c today
      = Ok (true, "Inferred retryable: " +:+ reason))
  /\ (contains "incorrect procedure" low = false ->
      contains "not billable" low = false ->
      contains "form incomplete" low = false ->
      is_eligible_for_resubmission c today
      = Ok (false, "Inferred non-retryable: " +:+ reason)).

(** *** Vocabulary of the driver's properties *)

(** The value the date step starts from: [submitted_at], or else [date]. *)
Definition source_date (r : gmap string value) : value :=
  por (get r "submitted_at") (get r "date").

Definition text_or_null (v : value) : bool := is_str v || is_none v.

(** A string with no white space at either end. *)
Definition trimmed (s : string) : Prop := strip s = s.

(** The claim a row normalizes to, when [normalize_record] returns. *)
Definition claim_of (source : string) (row : gmap string value)
  : option NormalizedClaim :=
  match normalize_record row source with
  | (Ok c, _) => Some c
  | (Raise _, _) => None
  end.

Definition claims_of (source : string) (rows : list (gmap string value))
  : list NormalizedClaim := omap (claim_of source) rows.

(** The warnings the rows of one source cause, in order. *)
Definition warnings_of (source : string) (rows : list (gmap string value))
  : list string := flat_map (fun row => snd (normalize_record row source)) rows.

(** The output row of a claim, when the classifier, run at the default
    date, puts it on the eligible or on the excluded side. *)
Definition eligible_row_of (c : NormalizedClaim) : option eligible_row :=
  match is_eligible_for_resubmission c default_today with
  | Ok (true, reason) =>
      Some (mkeligible (claim_id c) reason (source_system c)
              ("Review and correct '" +:+ reason +:+ "' and resubmit"))
  | _ => None
  end.

Definition excluded_row_of (c : NormalizedClaim) : option excluded_row :=
  match is_eligible_for_resubmission c default_today with
  | Ok (false, reason) =>
      Some (mkexcluded (claim_id c) reason (source_system c))
  | _ => None
  end.

(** A row on whose claim the classifier raises: denied, with a patient id
    other than "unknown", and a source date that is neither text nor
    null. *)
Definition breaks_classifier (source : string) (row : gmap string value)
  : bool :=
  let n := initial_claim row source in
  bool_decide (status n = "denied")
  && negb (bool_decide (patient_id n = "unknown"))
  && negb (text_or_null (source_date row)).

(** The keys [normalize_record] looks up. *)
Definition keys_read : list string :=
  [ "claim_id"; "id"; "patient_id"; "member"; "procedure_code";
    "denial_reason"; "error_msg"; "status"; "submitted_at"; "date" ].

(** *** Concrete inputs *)

(** Normalized sample claims. *)
Definition claim_A123 : NormalizedClaim :=
  mkclaim "A123" "P001" "99213" "Missing modifier" "denied"
    (VStr "2025-07-01") "alpha".

Definition claim_B987 : NormalizedClaim :=
  mkclaim "B987" "P010" "unknown" "Incorrect provider type" "denied"
    (VStr "2025-07-03") "beta".

Definition claim_B988 : NormalizedClaim :=
  mkclaim "B988" "P011" "unknown" "Missing modifier" "denied"
    (VStr "2025-07-09") "beta".

Definition with_reason (c : NormalizedClaim) (reason : string)
  : NormalizedClaim :=
  {| claim_id := claim_id c; patient_id := patient_id c;
     procedure_code := procedure_code c; denial_reason := reason;
     status := status c; submitted_at := submitted_at c;
     source_system := source_system c |}.

Definition with_submitted_at_text (c : NormalizedClaim) (s : string)
  : NormalizedClaim := set_submitted_at c (VStr s).

(** A reason that holds two of the fallback phrases. *)
Definition claim_both_phrases : NormalizedClaim :=
  with_reason claim_A123 "Form incomplete, not billable".

(** A beta item whose date is a JSON number. *)
Definition numeric_date_record : gmap string value :=
  <["id" := VStr "B991"]> (<["date" := VInt 20250709]> ∅).

(** An alpha row whose claim id is a single space. *)
Definition blank_id_record : gmap string value :=
  <["claim_id" := VStr " "]> ∅.

(** A denied beta item whose date is text in another format. *)
Definition bad_date_record : gmap string value :=
  beta_item (VStr "B991") (VStr "P013") (VStr "99213")
    (VStr "Missing modifier") (VStr "09/07/2025") (VStr "denied").

(** The sample row A123 with its date cell left empty. *)
Definition nan_date_record : gmap string value :=
  <["submitted_at" := VNaN]> A123.

(** The candidates of the sample batch. *)
Definition candidate (id reason source : string) : eligible_row :=
  mkeligible id reason source
    ("Review and correct '" +:+ reason +:+ "' and resubmit").

Definition sample_eligible : list eligible_row :=
  [ candidate "A123" "Missing modifier" "alpha";
    candidate "A124" "Incorrect NPI" "alpha";
    candidate "A127" "Prior auth required" "alpha";
    candidate "B988" "Missing modifier" "beta" ].

(** * Properties *)

(** ** Strings *)

Section Strings.

Lemma append_cons c s r : String c s +:+ r = String c (s +:+ r).
Proof. reflexivity. Qed.

Lemma append_nil r : "" +:+ r = r.
Proof. reflexivity. Qed.

Lemma is_space_lower_char c : is_space (lower_char c) = is_space c.
Proof. destruct c as [[] [] [] [] [] [] [] []]; reflexivity. Qed.

Lemma lower_char_idem c : lower_char (lower_char c) = lower_char c.
Proof. destruct c as [[] [] [] [] [] [] [] []]; reflexivity. Qed.

Lemma lower_idem s : lower (lower s) = lower s.
Proof.
  induction s as [|c s IH]; simpl; [reflexivity|].
  now rewrite lower_char_idem, IH.
Qed.

Lemma lower_lstrip s : lower (lstrip s) = lstrip (lower s).
Proof.
  induction s as [|c s IH]; simpl; [reflexivity|].
  rewrite is_space_lower_char. destruct (is_space c); [exact IH|reflexivity].
Qed.

Lemma lower_rstrip s : lower (rstrip s) = rstrip (lower s).
Proof.
  induction s as [|c s IH]; simpl; [reflexivity|].
  rewrite <- IH, is_space_lower_char.
  destruct (rstrip s) as [|c' r]; simpl; [|reflexivity].
  destruct (is_space c); reflexivity.
Qed.

Lemma lower_strip s : lower (strip s) = strip (lower s).
Proof. unfold strip. now rewrite lower_rstrip, lower_lstrip. Qed.

Lemma rstrip_idem s : rstrip (rstrip s) = rstrip s.
Proof.
  induction s as [|c s IH]; simpl; [reflexivity|].
  destruct (rstrip s) as [|c' r] eqn:E.
  - destruct (is_space c) eqn:Ec; simpl; [reflexivity|now rewrite Ec].
  - change (rstrip (String c (String c' r))) with
      (match rstrip (String c' r) with
       | EmptyString =>
           if is_space c then EmptyString else String c EmptyString
       | x => String c x
       end).
    now rewrite IH.
Qed.


Lemma lstrip_no_leading_space s : no_leading_space (lstrip s).
Proof.
  induction s as [|c s IH]; simpl; [exact I|].
  destruct (is_space c) eqn:E; [exact IH|exact E].
Qed.

Lemma lstrip_fixed s : no_leading_space s -> lstrip s = s.
Proof. destruct s as [|c s]; simpl; [reflexivity|]. now intros ->. Qed.

Lemma rstrip_no_leading_space s :
  no_leading_space s -> no_leading_space (rstrip s).
Proof.
  destruct s as [|c s]; simpl; [exact id|]. intros Hc.
  destruct (rstrip s); [rewrite Hc|]; exact Hc.
Qed.

Lemma strip_idem s : strip (strip s) = strip s.
Proof.
  unfold strip.
  rewrite (lstrip_fixed (rstrip (lstrip s))).
  - apply rstrip_idem.
  - apply rstrip_no_leading_space, lstrip_no_leading_space.
Qed.

Lemma strip_lower_fixed s : strip (lower (strip (lower s))) = strip (lower s).
Proof. now rewrite lower_strip, lower_idem, strip_idem. Qed.

End Strings.

(** ** Dates: what the parsers return, and the round trip through
    [isoformat] *)

Section Dates.

Lemma make_datetime_valid ymd t dt :
  make_datetime ymd t = Ok dt -> valid_date (dt_date dt) = true.
Proof.
  destruct ymd as [[y m] d], t as [[[[hh mi] ss] us] tz]. simpl.
  destruct (valid_date (mkdate y m d)) eqn:E; [|discriminate].
  intros [= <-]. exact E.
Qed.

Lemma bind_Ok {A B} (r : result A) (k : A -> result B) b :
  r ≫= k = Ok b -> exists a, r = Ok a /\ k a = Ok b.
Proof. destruct r as [a|e]; [eauto|discriminate]. Qed.

Lemma fromisoformat_valid s dt :
  fromisoformat s = Ok dt -> valid_date (dt_date dt) = true.
Proof.
  unfold fromisoformat.
  do 10 (destruct s as [|? s]; [discriminate|]).
  intros H. apply bind_Ok in H as (ymd & _ & H).
  apply bind_Ok in H as (t & _ & H).
  eapply make_datetime_valid, H.
Qed.

Lemma strptime_valid s dt :
  strptime s = Ok dt -> valid_date (dt_date dt) = true.
Proof.
  unfold strptime.
  do 4 (destruct s as [|? s]; [discriminate|]).
  destruct s as [|sep s]; [discriminate|].
  destruct (bool_decide (sep = "-"%char)) eqn:E.
  - apply bool_decide_eq_true in E as ->.
    intros H. apply bind_Ok in H as (ymd & _ & H).
    eapply make_datetime_valid, H.
  - apply bool_decide_eq_false in E.
    destruct sep as [[] [] [] [] [] [] [] []]; try discriminate.
    now destruct E.
Qed.

(** Case analysis on an integer known to lie in a small interval. *)
Ltac enum_from z lo fuel :=
  lazymatch fuel with
  | O => exfalso; lia
  | S ?n =>
      let E := fresh "E" in
      destruct (Z.eq_dec z lo) as [E|E];
      [subst z | let lo' := eval compute in (lo + 1) in enum_from z lo' n]
  end.

Lemma digit_val_digit z : 0 <= z <= 9 -> digit_val (digit z) = Some z.
Proof. intros H. enum_from z 0 10%nat; reflexivity. Qed.

Lemma num2_pad2 z r :
  0 <= z <= 99 ->
  exists c1 c2, pad2 z +:+ r = String c1 (String c2 r)
                /\ num2 c1 c2 = Some z.
Proof.
  intros H. exists (digit (z / 10)), (digit (z mod 10)).
  split; [reflexivity|]. unfold num2.
  rewrite !digit_val_digit by (Z.div_mod_to_equations; lia). simpl.
  f_equal. Z.div_mod_to_equations; lia.
Qed.

Lemma parse_month_pad2 m r :
  1 <= m <= 12 -> parse_month (pad2 m +:+ r) = Some (m, r).
Proof. intros H. enum_from m 1 12%nat; reflexivity. Qed.

Lemma parse_day_pad2 d r :
  1 <= d <= 31 -> parse_day (pad2 d +:+ r) = Some (d, r).
Proof. intros H. enum_from d 1 31%nat; reflexivity. Qed.

Lemma days_in_month_le y m : days_in_month y m <= 31.
Proof.
  unfold days_in_month.
  repeat match goal with |- context [if ?b then _ else _] => destruct b end;
    lia.
Qed.

Lemma valid_date_bounds d :
  valid_date d = true ->
  1 <= year d <= 9999 /\ 1 <= month d <= 12 /\ 1 <= day d <= 31.
Proof.
  unfold valid_date. rewrite !andb_true_iff, !Z.leb_le.
  pose proof (days_in_month_le (year d) (month d)). lia.
Qed.

Lemma pad4_split y r :
  1 <= y <= 9999 ->
  exists c1 c2 c3 c4,
    pad4 y +:+ r = String c1 (String c2 (String c3 (String c4 r)))
    /\ num2 c1 c2 = Some (y / 100) /\ num2 c3 c4 = Some (y mod 100).
Proof.
  intros H.
  exists (digit (y / 1000)), (digit (y / 100 mod 10)),
    (digit (y mod 100 / 10)), (digit (y mod 100 mod 10)).
  split; [reflexivity|]. unfold num2.
  rewrite !digit_val_digit by (Z.div_mod_to_equations; lia). simpl.
  split; f_equal; Z.div_mod_to_equations; lia.
Qed.


Lemma fromisoformat_isoformat d :
  valid_date d = true -> fromisoformat (isoformat d) = Ok (midnight d).
Proof.
  intros Hv. destruct (valid_date_bounds d Hv) as (Hy & Hm & Hd).
  destruct d as [y m dd]. cbn [year month day] in *.
  unfold isoformat. cbn [year month day].
  destruct (pad4_split y ("-" +:+ pad2 m +:+ "-" +:+ pad2 dd) Hy)
    as (c1 & c2 & c3 & c4 & -> & E1 & E2).
  destruct (num2_pad2 m ("-" +:+ pad2 dd) ltac:(lia))
    as (m1 & m2 & Em & E3).
  destruct (num2_pad2 dd "" ltac:(lia)) as (d1 & d2 & Ed & E4).
  rewrite ?append_cons, ?append_nil in *. rewrite Em.
  replace (pad2 dd) with (pad2 dd +:+ "") by (unfold pad2; reflexivity).
  rewrite Ed.
  unfold fromisoformat, parse_isoformat_date.
  rewrite E1; cbn [mbind option_bind]. rewrite E2; cbn [mbind option_bind].
  rewrite E3; cbn [mbind option_bind]. rewrite E4; cbn [mbind option_bind].
  replace (100 * (y / 100) + y mod 100) with y
    by (Z.div_mod_to_equations; lia).
  rewrite !(bool_decide_eq_true_2 _ eq_refl).
  cbn -[valid_date]. rewrite Hv. reflexivity.
Qed.

Lemma strptime_isoformat d :
  valid_date d = true -> strptime (isoformat d) = Ok (midnight d).
Proof.
  intros Hv. destruct (valid_date_bounds d Hv) as (Hy & Hm & Hd).
  destruct d as [y m dd]. cbn [year month day] in *.
  unfold isoformat. cbn [year month day].
  destruct (pad4_split y ("-" +:+ pad2 m +:+ "-" +:+ pad2 dd) Hy)
    as (c1 & c2 & c3 & c4 & -> & E1 & E2).
  unfold strptime. rewrite ?append_cons, ?append_nil.
  rewrite E1; cbn [mbind option_bind]. rewrite E2; cbn [mbind option_bind].
  rewrite parse_month_pad2 by lia. cbn [mbind option_bind].
  replace (pad2 dd) with (pad2 dd +:+ "") by (unfold pad2; reflexivity).
  rewrite parse_day_pad2 by lia. cbn [mbind option_bind].
  replace (100 * (y / 100) + y mod 100) with y
    by (Z.div_mod_to_equations; lia).
  cbn -[valid_date]. rewrite Hv. reflexivity.
Qed.

Lemma contains_T_cons c s :
  contains "T" (String c s) = bool_decide (c = "T"%char) || contains "T" s.
Proof.
  change (contains "T" (String c s))
    with (String.prefix "T" (String c s) || contains "T" s).
  f_equal. cbn [String.prefix].
  destruct (ascii_dec "T" c) as [<-|N].
  - now destruct s.
  - symmetry. apply bool_decide_eq_false. congruence.
Qed.

Lemma digit_not_T z : 0 <= z <= 9 -> bool_decide (digit z = "T"%char) = false.
Proof. intros H. enum_from z 0 10%nat; reflexivity. Qed.

Lemma isoformat_no_T d :
  valid_date d = true -> contains "T" (isoformat d) = false.
Proof.
  intros Hv. destruct (valid_date_bounds d Hv) as (Hy & Hm & Hd).
  destruct d as [y m dd]. cbn [year month day] in *.
  unfold isoformat, pad4, pad2; cbn [year month day].
  rewrite ?append_cons, ?append_nil.
  rewrite !contains_T_cons.
  rewrite !digit_not_T by (Z.div_mod_to_equations; lia).
  reflexivity.
Qed.

End Dates.

(** ** The eligibility classifier *)

Section Classifier.



Lemma fromisoformat_date_isoformat d :
  valid_date d = true -> fromisoformat_date (VStr (isoformat d)) = Ok d.
Proof.
  intros Hv. unfold fromisoformat_date.
  now rewrite fromisoformat_isoformat.
Qed.

Lemma fromisoformat_date_not_none v d :
  fromisoformat_date v = Ok d -> is_none v = false.
Proof. destruct v; simpl; congruence. Qed.

Lemma status_not_denied c today :
  status c <> "denied" ->
  is_eligible_for_resubmission c today = Ok (false, "Status not denied").
Proof.
  intros H. unfold is_eligible_for_resubmission.
  now rewrite bool_decide_eq_false_2.
Qed.

Lemma patient_unknown c today :
  status c = "denied" -> patient_id c = "unknown" ->
  is_eligible_for_resubmission c today = Ok (false, "Patient ID is null").
Proof.
  intros Hs Hp. unfold is_eligible_for_resubmission.
  now rewrite Hs, Hp.
Qed.

Lemma submitted_null c today :
  status c = "denied" -> patient_id c <> "unknown" ->
  submitted_at c = VNone ->
  is_eligible_for_resubmission c today
  = Ok (false, "Invalid submitted date").
Proof.
  intros Hs Hp Hd. unfold is_eligible_for_resubmission.
  rewrite Hs, Hd, (bool_decide_eq_false_2 _ Hp). reflexivity.
Qed.

Lemma date_window c today d :
  status c = "denied" -> patient_id c <> "unknown" ->
  fromisoformat_date (submitted_at c) = Ok d ->
  is_eligible_for_resubmission c today
  = if days_between today d <=? 7
    then Ok (false, "Submitted less than or equal to 7 days ago")
    else Ok (reason_verdict (denial_reason c)).
Proof.
  intros Hs Hp Hd. unfold is_eligible_for_resubmission.
  rewrite Hs, (bool_decide_eq_false_2 _ Hp),
    (fromisoformat_date_not_none _ _ Hd), Hd.
  reflexivity.
Qed.

Lemma passes_guards_verdict c today :
  passes_guards c today ->
  is_eligible_for_resubmission c today
  = Ok (reason_verdict (denial_reason c)).
Proof.
  intros (Hs & Hp & d & Hd & Hw).
  rewrite (date_window c today d Hs Hp Hd).
  now destruct (Z.leb_spec (days_between today d) 7); [lia|].
Qed.

End Classifier.

(** ** The normalizer *)

Section Normalizer.

Lemma bind_Raise {A B} (r : result A) (k : A -> result B) e :
  r ≫= k = Raise e -> r = Raise e \/ exists a, r = Ok a /\ k a = Raise e.
Proof. destruct r as [a|e']; [right; eauto|intros [= <-]; now left]. Qed.

Lemma of_option_Raise {A} (o : option A) e :
  of_option o = Raise e -> e = ValueError.
Proof. destruct o; simpl; congruence. Qed.

Lemma make_datetime_Raise ymd t e :
  make_datetime ymd t = Raise e -> e = ValueError.
Proof.
  destruct ymd as [[y m] d], t as [[[[hh mi] ss] us] tz]. simpl.
  destruct (valid_date _); congruence.
Qed.

Lemma fromisoformat_Raise s e : fromisoformat s = Raise e -> e = ValueError.
Proof.
  unfold fromisoformat.
  do 10 (destruct s as [|? s]; [congruence|]).
  intros H. apply bind_Raise in H as [H|(ymd & _ & H)].
  { eapply of_option_Raise, H. }
  apply bind_Raise in H as [H|(t & _ & H)].
  - destruct s; [discriminate|]. eapply of_option_Raise, H.
  - eapply make_datetime_Raise, H.
Qed.

Lemma strptime_Raise s e : strptime s = Raise e -> e = ValueError.
Proof.
  unfold strptime.
  do 4 (destruct s as [|? s]; [congruence|]).
  destruct s as [|sep s]; [congruence|].
  destruct (bool_decide (sep = "-"%char)) eqn:E.
  - apply bool_decide_eq_true in E as ->.
    intros H. apply bind_Raise in H as [H|(ymd & _ & H)].
    + eapply of_option_Raise, H.
    + eapply make_datetime_Raise, H.
  - apply bool_decide_eq_false in E.
    destruct sep as [[] [] [] [] [] [] [] []]; congruence.
Qed.

(** The three outcomes of the date step. *)
Lemma normalize_date_cases raw :
  (exists d, valid_date d = true /\ is_str raw = true
             /\ normalize_date raw = Ok (VStr (isoformat d)))
  \/ (is_str raw = true /\ normalize_date raw = Raise ValueError)
  \/ (is_str raw = false /\ normalize_date raw = Ok raw).
Proof.
  destruct raw as [|s|z|b|]; try (right; right; split; reflexivity).
  unfold normalize_date.
  destruct (contains "T" s).
  - destruct (fromisoformat _) as [dt|e] eqn:E.
    + left. exists (dt_date dt). split; [|split; reflexivity].
      eapply fromisoformat_valid, E.
    + right; left. apply fromisoformat_Raise in E as ->. now split.
  - destruct (strptime s) as [dt|e] eqn:E.
    + left. exists (dt_date dt). split; [|split; reflexivity].
      eapply strptime_valid, E.
    + right; left. apply strptime_Raise in E as ->. now split.
Qed.

(** [normalize_record] always returns a claim: the initial dict with
    [submitted_at] rewritten in one of three ways. *)
Lemma normalize_record_cases r src :
  let n := initial_claim r src in
  (exists d, valid_date d = true /\ is_str (submitted_at n) = true
     /\ normalize_date (submitted_at n) = Ok (VStr (isoformat d))
     /\ normalize_record r src
        = (Ok (set_submitted_at n (VStr (isoformat d))), []))
  \/ (is_str (submitted_at n) = true
      /\ normalize_date (submitted_at n) = Raise ValueError
      /\ normalize_record r src
         = (Ok (set_submitted_at n VNone), [date_warning n]))
  \/ (is_str (submitted_at n) = false
      /\ normalize_record r src
         = (Ok (set_submitted_at n (submitted_at n)), [])).
Proof.
  intros n. unfold normalize_record. fold n.
  destruct (normalize_date_cases (submitted_at n))
    as [(d & Hv & Hs & E)|[(Hs & E)|(Hs & E)]]; rewrite E.
  - left. exists d. now repeat split.
  - right; left. now repeat split.
  - right; right. now split.
Qed.

Lemma normalize_record_total r src :
  exists v log,
    normalize_record r src
    = (Ok (set_submitted_at (initial_claim r src) v), log).
Proof.
  destruct (normalize_record_cases r src)
    as [(d & _ & _ & _ & E)|[(_ & _ & E)|(_ & E)]]; rewrite E; eauto.
Qed.

End Normalizer.

(** * The claims *)


(** Discharges [passes_guards] on a concrete claim whose submission date
    is [d]. *)
Ltac passes_by_computation d :=
  split; [reflexivity|]; split; [discriminate|];
  exists d; split; [reflexivity|vm_compute; reflexivity].

(** C2. For every well-formed normalized claim (the submission date is the
    ISO text of a calendar date, or null) and every reference date, the
    classifier returns a verdict and raises nothing; a claim with a null
    submission date is ineligible. *)
Theorem classifier_total (c : NormalizedClaim) (today : date) :
  well_formed c ->
  (exists verdict, is_eligible_for_resubmission c today = Ok verdict)
  /\ (submitted_at c = VNone ->
      exists reason, is_eligible_for_resubmission c today = Ok (false, reason)).
Proof.
  intros Hwf. unfold is_eligible_for_resubmission.
  destruct (bool_decide (status c = "denied")); simpl; [|eauto].
  destruct (bool_decide (patient_id c = "unknown")); [eauto|].
  destruct Hwf as [->|(d & Hv & ->)]; simpl is_none; cbv iota; [eauto|].
  rewrite (fromisoformat_date_isoformat d Hv). simpl.
  split; [|discriminate].
  destruct (days_between today d <=? 7); eauto.
Qed.

(** The theorem at the sample claim A123. *)
Lemma classifier_total_witness :
  (exists verdict,
      is_eligible_for_resubmission claim_A123 default_today = Ok verdict)
  /\ (submitted_at claim_A123 = VNone ->
      exists reason,
        is_eligible_for_resubmission claim_A123 default_today
        = Ok (false, reason)).
Proof.
  apply (classifier_total claim_A123 default_today).
  right. exists (mkdate 2025 7 1). split; reflexivity.
Defined.


(** C5. Past the four guards, a denial reason in the retryable set gives
    eligible and a reason in the non-retryable set gives ineligible, each
    with the reason text itself as the verdict's reason. *)
Theorem exact_match_reasons (c : NormalizedClaim) (today : date) :
  passes_guards c today ->
  (In (denial_reason c)
      ["Missing modifier"; "Incorrect NPI"; "Prior auth required"] ->
   is_eligible_for_resubmission c today = Ok (true, denial_reason c))
  /\ (In (denial_reason c)
         ["Authorization expired"; "Incorrect provider type"] ->
      is_eligible_for_resubmission c today = Ok (false, denial_reason c)).
Proof.
  intros Hg. rewrite (passes_guards_verdict c today Hg).
  split; simpl; intros H;
    repeat (destruct H as [<-|H]; [reflexivity|]); destruct H.
Qed.

(** The theorem at the sample claim A123, whose reason is retryable. *)
Lemma exact_match_reasons_witness :
  (In (denial_reason claim_A123)
      ["Missing modifier"; "Incorrect NPI"; "Prior auth required"] ->
   is_eligible_for_resubmission claim_A123 default_today
   = Ok (true, denial_reason claim_A123))
  /\ (In (denial_reason claim_A123)
         ["Authorization expired"; "Incorrect provider type"] ->
      is_eligible_for_resubmission claim_A123 default_today
      = Ok (false, denial_reason claim_A123)).
Proof.
  apply (exact_match_reasons claim_A123 default_today).
  passes_by_computation (mkdate 2025 7 1).
Defined.


(** C6, as stated, fails: a reason that holds both "form incomplete" and
    "not billable" passes the guards, is in neither fixed set, and is
    classified retryable, because the code tests "form incomplete" before
    "not billable". *)
Lemma fallback_clauses_as_listed_fails :
  passes_guards claim_both_phrases default_today
  /\ (denial_reason claim_both_phrases ∉ retryable_reasons)
  /\ (denial_reason claim_both_phrases ∉ non_retryable_reasons)
  /\ is_eligible_for_resubmission claim_both_phrases default_today
     = Ok (true, "Inferred retryable: Form incomplete, not billable")
  /\ ~ fallback_clauses_as_listed claim_both_phrases default_today.
Proof.
  split; [passes_by_computation (mkdate 2025 7 1)|].
  split; [apply (bool_decide_eq_false_1 _); vm_compute; reflexivity|].
  split; [apply (bool_decide_eq_false_1 _); vm_compute; reflexivity|].
  split; [vm_compute; reflexivity|].
  intros (H & _). specialize (H (or_intror eq_refl)). vm_compute in H.
  discriminate H.
Qed.

(** C6, amended. Past the four guards and outside both fixed sets, the
    lower-cased reason is tested in the code's order: "incorrect procedure"
    gives non-retryable; failing that, "form incomplete" gives retryable;
    failing both, the verdict is non-retryable, with or without
    "not billable". The verdict's reason is the prefix followed by the
    reason text as it was, and a null or NaN reason is non-retryable. *)
Theorem fallback_heuristic_ordered (c : NormalizedClaim) (today : date) :
  passes_guards c today ->
  denial_reason c ∉ retryable_reasons ->
  denial_reason c ∉ non_retryable_reasons ->
  let reason := denial_reason c in
  let low := lower reason in
  (contains "incorrect procedure" low = true ->
   is_eligible_for_resubmission c today
   = Ok (false, "Inferred non-retryable: " +:+ reason))
  /\ (contains "incorrect procedure" low = false ->
      contains "form incomplete" low = true ->
      is_eligible_for_resubmission c today
      = Ok (true, "Inferred retryable: " +:+ reason))
  /\ (contains "incorrect procedure" low = false ->
      contains "form incomplete" low = false ->
      is_eligible_for_resubmission c today
      = Ok (false, "Inferred non-retryable: " +:+ reason))
  /\ mock_llm_classifier VNone = false
  /\ mock_llm_classifier VNaN = false.
Proof.
  intros Hg Hr Hn reason low.
  rewrite (passes_guards_verdict c today Hg). unfold reason_verdict.
  rewrite (bool_decide_eq_false_2 _ Hr), (bool_decide_eq_false_2 _ Hn).
  unfold mock_llm_classifier. cbn [isna str]. fold reason. fold low.
  repeat split.
  - now intros ->.
  - now intros -> ->.
  - intros -> ->. now destruct (contains "not billable" low).
Qed.

(** The theorem at a reason that holds two of the phrases. *)
Lemma fallback_heuristic_ordered_witness :
  let c := claim_both_phrases in
  let reason := denial_reason c in
  let low := lower reason in
  (contains "incorrect procedure" low = true ->
   is_eligible_for_resubmission c default_today
   = Ok (false, "Inferred non-retryable: " +:+ reason))
  /\ (contains "incorrect procedure" low = false ->
      contains "form incomplete" low = true ->
      is_eligible_for_resubmission c default_today
      = Ok (true, "Inferred retryable: " +:+ reason))
  /\ (contains "incorrect procedure" low = false ->
      contains "form incomplete" low = false ->
      is_eligible_for_resubmission c default_today
      = Ok (false, "Inferred non-retryable: " +:+ reason))
  /\ mock_llm_classifier VNone = false
  /\ mock_llm_classifier VNaN = false.
Proof.
  apply (fallback_heuristic_ordered claim_both_phrases default_today).
  - passes_by_computation (mkdate 2025 7 1).
  - apply (bool_decide_eq_false_1 _). vm_compute. reflexivity.
  - apply (bool_decide_eq_false_1 _). vm_compute. reflexivity.
Defined.

(** C8. The verdict is a function of the status, the patient id, the
    submission date and the denial reason alone: two claims that agree on
    these four fields get the same result at the same reference date. *)
Theorem verdict_depends_on_four_fields (c1 c2 : NormalizedClaim)
    (today : date) :
  status c1 = status c2 ->
  patient_id c1 = patient_id c2 ->
  submitted_at c1 = submitted_at c2 ->
  denial_reason c1 = denial_reason c2 ->
  is_eligible_for_resubmission c1 today
  = is_eligible_for_resubmission c2 today.
Proof.
  intros Hs Hp Hd Hr. unfold is_eligible_for_resubmission.
  now rewrite Hs, Hp, Hd, Hr.
Qed.

(** Two claims from different sources that agree on the four fields. *)
Lemma verdict_depends_on_four_fields_witness :
  is_eligible_for_resubmission claim_A123 default_today
  = is_eligible_for_resubmission
      (mkclaim "B000" "P001" "unknown" "Missing modifier" "denied"
         (VStr "2025-07-01") "beta")
      default_today.
Proof.
  apply verdict_depends_on_four_fields; reflexivity.
Defined.

(** C10. A claim whose denial reason is the literal "unknown" and which
    passes the four guards is ineligible, with reason
    "Inferred non-retryable: unknown". *)
Theorem unknown_reason_non_retryable (c : NormalizedClaim) (today : date) :
  passes_guards c today ->
  denial_reason c = "unknown" ->
  ("unknown" ∉ retryable_reasons)
  /\ ("unknown" ∉ non_retryable_reasons)
  /\ mock_llm_classifier (VStr "unknown") = false
  /\ is_eligible_for_resubmission c today
     = Ok (false, "Inferred non-retryable: unknown").
Proof.
  intros Hg Hr. rewrite (passes_guards_verdict c today Hg), Hr.
  split; [apply (bool_decide_eq_false_1 _); vm_compute; reflexivity|].
  split; [apply (bool_decide_eq_false_1 _); vm_compute; reflexivity|].
  split; vm_compute; reflexivity.
Qed.

(** The theorem at the sample claim A123 with its reason replaced. *)
Lemma unknown_reason_non_retryable_witness :
  ("unknown" ∉ retryable_reasons)
  /\ ("unknown" ∉ non_retryable_reasons)
  /\ mock_llm_classifier (VStr "unknown") = false
  /\ is_eligible_for_resubmission (with_reason claim_A123 "unknown")
       default_today
     = Ok (false, "Inferred non-retryable: unknown").
Proof.
  apply (unknown_reason_non_retryable (with_reason claim_A123 "unknown")
           default_today).
  - passes_by_computation (mkdate 2025 7 1).
  - reflexivity.
Defined.


Lemma normalize_date_str s :
  normalize_date (VStr s)
  = dt ← parse_source_date s; Ok (VStr (isoformat (dt_date dt))).
Proof.
  unfold normalize_date, parse_source_date. now destruct (contains "T" s).
Qed.

(** What [normalize_record] returns, in terms of the date step. *)
Lemma normalize_record_outcome r src :
  let n := initial_claim r src in
  exists v log,
    normalize_record r src = (Ok (set_submitted_at n v), log)
    /\ match normalize_date (submitted_at n) with
       | Ok v' => v = v' /\ log = []
       | Raise _ => v = VNone /\ log = [date_warning n]
       end.
Proof.
  intros n.
  pose proof (normalize_record_cases r src) as H. cbv zeta in H. fold n in H.
  destruct H as [(d & _ & _ & E & N)|[(_ & E & N)|(Hs & N)]].
  - exists (VStr (isoformat d)), []. now rewrite E.
  - exists VNone, [date_warning n]. now rewrite E.
  - exists (submitted_at n), []. split; [exact N|].
    destruct (submitted_at n); try discriminate; now simpl.
Qed.

(** The patient id when both keys are absent, and when the alias key is
    present and bound to [None]. *)
Lemma patient_id_absent r src :
  r !! "patient_id" = None -> r !! "member" = None ->
  patient_id (initial_claim r src) = "unknown".
Proof.
  intros H1 H2. unfold initial_claim, get, get_default; simpl.
  now rewrite H1, H2.
Qed.

Lemma patient_id_null_member r src :
  r !! "patient_id" = None -> r !! "member" = Some VNone ->
  patient_id (initial_claim r src) = "None".
Proof.
  intros H1 H2. unfold initial_claim, get, get_default; simpl.
  now rewrite H1, H2.
Qed.

(** C1 (the code departs from the claim). The sample record B990 has no
    [patient_id] key and its [member] key is bound to null. Its normalized
    patient id is the text "None", not "unknown", so the classifier's null
    check does not fire and the verdict comes from the denial reason. *)
Theorem null_member_not_flagged :
  B990 !! "patient_id" = None
  /\ B990 !! "member" = Some VNone
  /\ exists c,
      normalize_record B990 "beta" = (Ok c, [])
      /\ patient_id c = "None"
      /\ status c = "denied"
      /\ is_eligible_for_resubmission c default_today
         = Ok (false, "Inferred non-retryable: incorrect procedure").
Proof.
  split; [reflexivity|]. split; [reflexivity|].
  eexists. split; [vm_compute; reflexivity|].
  repeat split; vm_compute; reflexivity.
Qed.

(** The same defect on the CSV side: an empty [patient_id] cell is NaN,
    which is truthy, and becomes the text "nan". *)
Example nan_patient_id_not_flagged :
  exists c,
    normalize_record A125 "alpha" = (Ok c, [])
    /\ patient_id c = "nan"
    /\ is_eligible_for_resubmission c default_today
       = Ok (false, "Authorization expired").
Proof.
  eexists. split; [vm_compute; reflexivity|].
  split; vm_compute; reflexivity.
Qed.

(** C9. A record with no [procedure_code] key, or a falsy value under it,
    is normalized with procedure code "unknown"; a [code] key, whatever it
    holds, changes nothing. *)
Theorem procedure_code_ignores_code_alias (r : gmap string value)
    (src : string) :
  truthy (get r "procedure_code") = false ->
  (exists c log,
      normalize_record r src = (Ok c, log) /\ procedure_code c = "unknown")
  /\ (forall v, exists c log,
        normalize_record (<["code" := v]> r) src = (Ok c, log)
        /\ procedure_code c = "unknown").
Proof.
  assert (P : forall r', truthy (get r' "procedure_code") = false ->
            exists c log, normalize_record r' src = (Ok c, log)
                          /\ procedure_code c = "unknown").
  { intros r' H. destruct (normalize_record_total r' src) as (v & log & E).
    eexists _, log. split; [exact E|].
    unfold initial_claim, por; simpl. now rewrite H. }
  intros H. split; [now apply P|].
  intros v. apply P. unfold get in *.
  now rewrite lookup_insert_ne.
Qed.

(** The sample item B988 carries a [code] key and no [procedure_code]. *)
Lemma procedure_code_ignores_code_alias_witness :
  (exists c log,
      normalize_record B988 "beta" = (Ok c, log)
      /\ procedure_code c = "unknown")
  /\ (forall v, exists c log,
        normalize_record (<["code" := v]> B988) "beta" = (Ok c, log)
        /\ procedure_code c = "unknown").
Proof.
  apply (procedure_code_ignores_code_alias B988 "beta").
  reflexivity.
Defined.


(** C3 (the code departs from the claim). A source date that is not text
    goes past the [isinstance] test untouched and is never set to null:
    the NaN of an empty CSV date cell and a JSON number both stay in
    [submitted_at], with no warning, so the field is neither an ISO date
    string nor null. On the denied sample row A123 with its date cell
    emptied the classifier then hands the NaN to [datetime.fromisoformat]
    and raises. *)
Theorem non_text_date_kept :
  (exists c,
      normalize_record nan_date_record "alpha" = (Ok c, [])
      /\ submitted_at c = VNaN
      /\ ~ iso_date_or_null (submitted_at c)
      /\ is_eligible_for_resubmission c default_today = Raise TypeError)
  /\ (exists c,
        normalize_record numeric_date_record "beta" = (Ok c, [])
        /\ submitted_at c = VInt 20250709
        /\ ~ iso_date_or_null (submitted_at c)).
Proof.
  split.
  - eexists. split; [vm_compute; reflexivity|].
    split; [reflexivity|].
    split; [intros [H|(d & _ & H)]; discriminate H|].
    vm_compute. reflexivity.
  - eexists. split; [vm_compute; reflexivity|].
    split; [reflexivity|].
    intros [H|(d & _ & H)]; discriminate H.
Qed.

(** X17. When the source date (the [submitted_at] value, or else the
    [date] value) is text or null, the normalized [submitted_at] is the ISO
    text of a calendar date or null: text holding a [T] is parsed as a
    timestamp after [Z] is rewritten to [+00:00], other text as a bare
    date; a successful parse gives the ISO date and logs nothing, a failed
    parse gives null and logs one warning naming the claim id and the raw
    text, a null source gives null and logs nothing, and a bare ISO date
    is kept as it is. *)
Theorem submitted_at_iso_or_null (r : gmap string value) (src : string) :
  let raw := por (get r "submitted_at") (get r "date") in
  is_str raw || is_none raw = true ->
  exists c log,
    normalize_record r src = (Ok c, log)
    /\ iso_date_or_null (submitted_at c)
    /\ (forall s dt, raw = VStr s -> parse_source_date s = Ok dt ->
        submitted_at c = VStr (isoformat (dt_date dt)) /\ log = [])
    /\ (forall s e, raw = VStr s -> parse_source_date s = Raise e ->
        submitted_at c = VNone
        /\ log = ["Invalid date format for claim " +:+ claim_id c
                  +:+ ": " +:+ s])
    /\ (raw = VNone -> submitted_at c = VNone /\ log = [])
    /\ (forall d, valid_date d = true -> raw = VStr (isoformat d) ->
        submitted_at c = raw /\ log = []).
Proof.
  intros raw Hraw.
  destruct (normalize_record_outcome r src) as (v & log & E & H).
  cbv zeta in E, H.
  change (submitted_at (initial_claim r src)) with raw in H.
  exists (set_submitted_at (initial_claim r src) v), log.
  split; [exact E|]. cbn [submitted_at set_submitted_at claim_id].
  destruct raw as [|s|z|b|] eqn:Eraw; try discriminate Hraw.
  - (* null source *)
    simpl in H. destruct H as [-> ->].
    split; [now left|]. repeat split; intros; discriminate.
  - (* text source *)
    rewrite normalize_date_str in H.
    destruct (parse_source_date s) as [dt|e] eqn:P; simpl in H.
    + destruct H as [-> ->].
      assert (Hv : valid_date (dt_date dt) = true).
      { unfold parse_source_date in P. destruct (contains "T" s);
          [eapply fromisoformat_valid|eapply strptime_valid]; exact P. }
      split; [right; eauto|].
      split; [intros s' dt' [= <-] P'; rewrite P in P';
              injection P' as <-; now split|].
      split; [intros s' e' [= <-] P'; congruence|].
      split; [discriminate|].
      intros d Hd [= ->]. unfold parse_source_date in P.
      rewrite (isoformat_no_T d Hd), (strptime_isoformat d Hd) in P.
      injection P as <-. now split.
    + destruct H as [-> ->].
      split; [now left|].
      split; [intros s' dt' [= <-] P'; congruence|].
      split; [intros s' e' [= <-] _; split; [reflexivity|]|].
      { unfold date_warning.
        change (submitted_at (initial_claim r src)) with raw.
        now rewrite Eraw. }
      split; [discriminate|].
      intros d Hd [= ->]. unfold parse_source_date in P.
      rewrite (isoformat_no_T d Hd), (strptime_isoformat d Hd) in P.
      discriminate P.
Qed.

(** The sample item B988, whose date is a timestamp. *)
Lemma submitted_at_iso_or_null_witness :
  exists c log,
    normalize_record B988 "beta" = (Ok c, log)
    /\ iso_date_or_null (submitted_at c)
    /\ (forall s dt, VStr "2025-07-09T00:00:00" = VStr s ->
        parse_source_date s = Ok dt ->
        submitted_at c = VStr (isoformat (dt_date dt)) /\ log = [])
    /\ (forall s e, VStr "2025-07-09T00:00:00" = VStr s ->
        parse_source_date s = Raise e ->
        submitted_at c = VNone
        /\ log = ["Invalid date format for claim " +:+ claim_id c
                  +:+ ": " +:+ s])
    /\ (VStr "2025-07-09T00:00:00" = VNone ->
        submitted_at c = VNone /\ log = [])
    /\ (forall d, valid_date d = true ->
        VStr "2025-07-09T00:00:00" = VStr (isoformat d) ->
        submitted_at c = VStr "2025-07-09T00:00:00" /\ log = []).
Proof.
  apply (submitted_at_iso_or_null B988 "beta").
  reflexivity.
Defined.

(** ** Normalizing twice *)

Section Idempotence.

Lemma as_record_lookups c :
  as_record c !! "claim_id" = Some (VStr (claim_id c))
  /\ as_record c !! "patient_id" = Some (VStr (patient_id c))
  /\ as_record c !! "procedure_code" = Some (VStr (procedure_code c))
  /\ as_record c !! "denial_reason" = Some (VStr (denial_reason c))
  /\ as_record c !! "status" = Some (VStr (status c))
  /\ as_record c !! "submitted_at" = Some (submitted_at c)
  /\ as_record c !! "date" = None.
Proof. repeat split; reflexivity. Qed.

(** The text fields of a freshly built claim are already stripped, and
    the status is also lower-cased. *)
Lemma initial_claim_stripped r src :
  let n := initial_claim r src in
  strip (claim_id n) = claim_id n
  /\ strip (patient_id n) = patient_id n
  /\ strip (procedure_code n) = procedure_code n
  /\ strip (denial_reason n) = denial_reason n
  /\ strip (lower (status n)) = status n.
Proof.
  unfold initial_claim; simpl.
  repeat split; try apply strip_idem.
  - destruct (negb _); [apply strip_idem|reflexivity].
  - destruct (negb _); [apply strip_lower_fixed|reflexivity].
Qed.

Lemma por_nonempty s v : s <> "" -> por (VStr s) v = VStr s.
Proof.
  intros H. unfold por, truthy. now rewrite (bool_decide_eq_false_2 _ H).
Qed.

(** The dict literal built from the field set of a claim. *)
Lemma initial_claim_as_record c src :
  claim_id c <> "" -> patient_id c <> "" ->
  procedure_code c <> "" -> denial_reason c <> "" ->
  initial_claim (as_record c) src
  = {| claim_id := strip (claim_id c);
       patient_id := strip (patient_id c);
       procedure_code := strip (procedure_code c);
       denial_reason := strip (denial_reason c);
       status := strip (lower (status c));
       submitted_at := por (submitted_at c) VNone;
       source_system := src |}.
Proof.
  intros H1 H2 H3 H4.
  destruct (as_record_lookups c) as (L1 & L2 & L3 & L4 & L5 & L6 & L7).
  unfold initial_claim, get, get_default.
  rewrite L1, L2, L3, L4, L5, L6, L7.
  rewrite !por_nonempty by assumption. reflexivity.
Qed.

Lemma por_none_fixed v :
  is_none v || truthy v = true -> por v VNone = v.
Proof. unfold por. destruct v; simpl; try reflexivity; now intros ->. Qed.

(** A value the date step has produced is left alone by a second run. *)
Lemma normalize_date_fixed raw v :
  normalize_date raw = Ok v -> normalize_date v = Ok v.
Proof.
  destruct (normalize_date_cases raw)
    as [(d & Hv & _ & E)|[(_ & E)|(Hs & E)]]; rewrite E; intros [= <-].
  - unfold normalize_date.
    now rewrite (isoformat_no_T d Hv), (strptime_isoformat d Hv).
  - destruct raw; try discriminate Hs; reflexivity.
Qed.

End Idempotence.


(** C7, as stated, fails: a claim id made of white space is truthy, is
    stripped to the empty text, and the empty text, being falsy, is replaced
    by "unknown" when the claim is normalized again. *)
Lemma normalize_not_idempotent :
  (exists c1 c2,
      normalize_record blank_id_record "alpha" = (Ok c1, [])
      /\ normalize_record (as_record c1) "alpha" = (Ok c2, [])
      /\ claim_id c1 = "" /\ claim_id c2 = "unknown")
  /\ ~ renormalizes_to_itself blank_id_record "alpha".
Proof.
  split.
  - eexists _, _. split; [vm_compute; reflexivity|].
    split; [vm_compute; reflexivity|]. split; reflexivity.
  - intros (c & log & log' & E1 & E2).
    vm_compute in E1. injection E1 as <- <-.
    vm_compute in E2. discriminate E2.
Qed.

(** C7, amended. Whenever the normalized claim has non-empty claim id,
    patient id, procedure code and denial reason, and its [submitted_at] is
    null or truthy (an ISO date string always is), normalizing its field set
    again with the same source tag returns the same claim and logs
    nothing. *)
Theorem normalize_idempotent (r : gmap string value) (src : string)
    (c : NormalizedClaim) (log : list string) :
  normalize_record r src = (Ok c, log) ->
  claim_id c <> "" -> patient_id c <> "" ->
  procedure_code c <> "" -> denial_reason c <> "" ->
  is_none (submitted_at c) || truthy (submitted_at c) = true ->
  normalize_record (as_record c) src = (Ok c, []).
Proof.
  intros E H1 H2 H3 H4 H5.
  destruct (normalize_record_outcome r src) as (v & log0 & E0 & H).
  cbv zeta in E0, H. rewrite E0 in E. injection E as <- <-.
  destruct (initial_claim_stripped r src) as (S1 & S2 & S3 & S4 & S5).
  set (n := initial_claim r src) in *.
  cbn [claim_id patient_id procedure_code denial_reason submitted_at
       set_submitted_at] in H1, H2, H3, H4, H5.
  assert (D : normalize_date v = Ok v).
  { destruct (normalize_date (submitted_at n)) as [v'|e] eqn:N.
    - destruct H as [-> _]. eapply normalize_date_fixed, N.
    - destruct H as [-> _]. reflexivity. }
  unfold normalize_record.
  rewrite (initial_claim_as_record (set_submitted_at n v) src)
    by assumption.
  cbn [claim_id patient_id procedure_code denial_reason status submitted_at
       source_system set_submitted_at].
  rewrite S1, S2, S3, S4, S5, (por_none_fixed v H5), D.
  reflexivity.
Qed.

(** The sample item B988 normalizes to [claim_B988], a fixed point. *)
Lemma normalize_idempotent_witness :
  normalize_record (as_record claim_B988) "beta" = (Ok claim_B988, []).
Proof.
  apply (normalize_idempotent B988 "beta" _ []);
    solve [vm_compute; reflexivity | discriminate].
Defined.

(** ** Worked examples on the sample batch *)

(** Exactly seven days before the reference date is still inside the
    window; eight days is outside it. *)
Example seven_days_ago_ineligible :
  days_between default_today (mkdate 2025 7 23) = 7
  /\ is_eligible_for_resubmission
       (with_submitted_at_text claim_A123 "2025-07-23") default_today
     = Ok (false, "Submitted less than or equal to 7 days ago").
Proof. split; vm_compute; reflexivity. Qed.

Example eight_days_ago_goes_on :
  days_between default_today (mkdate 2025 7 22) = 8
  /\ is_eligible_for_resubmission
       (with_submitted_at_text claim_A123 "2025-07-22") default_today
     = Ok (true, "Missing modifier").
Proof. split; vm_compute; reflexivity. Qed.

(** The two ambiguous reasons the spec lists. *)
Example incorrect_procedure_any_case :
  is_eligible_for_resubmission
    (with_reason claim_A123 "Incorrect Procedure") default_today
  = Ok (false, "Inferred non-retryable: Incorrect Procedure").
Proof. vm_compute. reflexivity. Qed.

Example form_incomplete_retryable :
  is_eligible_for_resubmission
    (with_reason claim_A123 "form incomplete") default_today
  = Ok (true, "Inferred retryable: form incomplete").
Proof. vm_compute. reflexivity. Qed.

(** The timestamp of the sample beta items, with and without the UTC
    marker. *)
Example timestamp_to_date :
  normalize_date (VStr "2025-07-09T00:00:00") = Ok (VStr "2025-07-09")
  /\ normalize_date (VStr "2025-07-09T00:00:00Z") = Ok (VStr "2025-07-09")
  /\ normalize_date (VStr "09/07/2025") = Raise ValueError.
Proof. repeat split; vm_compute; reflexivity. Qed.

(** Outside the well-formed claims the classifier can raise: a
    [submitted_at] that is neither text nor null reaches
    [datetime.fromisoformat]. *)
Example classifier_raises_on_nan_date :
  is_eligible_for_resubmission
    (set_submitted_at claim_A123 VNaN) default_today
  = Raise TypeError.
Proof. vm_compute. reflexivity. Qed.

(** * Further properties: the two core functions together *)

Section Composition.

Lemma normalize_record_inv r src c log :
  normalize_record r src = (Ok c, log) ->
  exists v,
    c = set_submitted_at (initial_claim r src) v
    /\ match normalize_date (source_date r) with
       | Ok v' => v = v' /\ log = []
       | Raise _ => v = VNone /\ log = [date_warning (initial_claim r src)]
       end.
Proof.
  intros E.
  destruct (normalize_record_outcome r src) as (v & log0 & E0 & H).
  cbv zeta in E0, H. rewrite E0 in E. injection E as <- <-.
  exists v. split; [reflexivity|exact H].
Qed.

Lemma well_formed_classifies c today :
  well_formed c -> exists verdict, is_eligible_for_resubmission c today = Ok verdict.
Proof.
  intros Hwf. unfold is_eligible_for_resubmission.
  destruct (bool_decide (status c = "denied")); simpl; [|eauto].
  destruct (bool_decide (patient_id c = "unknown")); [eauto|].
  destruct Hwf as [->|(d & Hv & ->)]; simpl is_none; cbv iota; [eauto|].
  rewrite (fromisoformat_date_isoformat d Hv). simpl.
  destruct (days_between today d <=? 7); eauto.
Qed.

(** The date a text or null source leaves in the claim. *)
Lemma normalize_date_text_or_null raw :
  text_or_null raw = true ->
  match normalize_date raw with
  | Ok v => iso_date_or_null v
  | Raise e => e = ValueError
  end.
Proof.
  intros H.
  destruct (normalize_date_cases raw)
    as [(d & Hv & _ & E)|[(_ & E)|(Hs & E)]]; rewrite E.
  - right. eauto.
  - reflexivity.
  - destruct raw; try discriminate. now left.
Qed.

Lemma normalize_record_well_formed r src :
  text_or_null (source_date r) = true ->
  exists c log, normalize_record r src = (Ok c, log) /\ well_formed c.
Proof.
  intros H. destruct (normalize_record_outcome r src) as (v & log & E & N).
  cbv zeta in E, N.
  change (submitted_at (initial_claim r src)) with (source_date r) in N.
  pose proof (normalize_date_text_or_null _ H) as W.
  exists (set_submitted_at (initial_claim r src) v), log.
  split; [exact E|]. unfold well_formed; simpl.
  destruct (normalize_date (source_date r)).
  - now destruct N as [-> _].
  - destruct N as [-> _]. now left.
Qed.

End Composition.

(** X1. A record whose source date is text or null is normalized to a
    claim on which the classifier returns a verdict, at every reference
    date: nothing is raised on the way. *)
Theorem text_dates_never_break_the_classifier (r : gmap string value)
    (src : string) (today : date) :
  text_or_null (source_date r) = true ->
  exists c log verdict,
    normalize_record r src = (Ok c, log)
    /\ is_eligible_for_resubmission c today = Ok verdict.
Proof.
  intros H. destruct (normalize_record_well_formed r src H) as (c & log & E & W).
  destruct (well_formed_classifies c today W) as (verdict & V).
  now exists c, log, verdict.
Qed.

(** The sample row A123 at the default date. *)
Lemma text_dates_never_break_the_classifier_witness :
  exists c log verdict,
    normalize_record A123 "alpha" = (Ok c, log)
    /\ is_eligible_for_resubmission c default_today = Ok verdict.
Proof.
  apply (text_dates_never_break_the_classifier A123 "alpha" default_today).
  reflexivity.
Defined.

(** X2. A record whose source date is text that does not parse is
    normalized with a null date and one warning, and its claim is
    ineligible at every reference date; when it is denied and the patient
    is known, the reason is "Invalid submitted date". *)
Theorem unparseable_date_is_ineligible (r : gmap string value)
    (src : string) (today : date) (s : string) (e : exn) :
  source_date r = VStr s ->
  parse_source_date s = Raise e ->
  exists c,
    normalize_record r src
    = (Ok c, ["Invalid date format for claim " +:+ claim_id c
              +:+ ": " +:+ s])
    /\ submitted_at c = VNone
    /\ (exists reason,
          is_eligible_for_resubmission c today = Ok (false, reason))
    /\ (status c = "denied" -> patient_id c <> "unknown" ->
        is_eligible_for_resubmission c today
        = Ok (false, "Invalid submitted date")).
Proof.
  intros Hs Hp.
  destruct (normalize_record_outcome r src) as (v & log & E & N).
  cbv zeta in E, N.
  change (submitted_at (initial_claim r src)) with (source_date r) in N.
  rewrite Hs, normalize_date_str, Hp in N. simpl in N.
  destruct N as [-> ->].
  exists (set_submitted_at (initial_claim r src) VNone).
  split.
  { rewrite E. unfold date_warning.
    change (submitted_at (initial_claim r src)) with (source_date r).
    now rewrite Hs. }
  split; [reflexivity|].
  split; [|intros H1 H2; apply submitted_null; [exact H1|exact H2|reflexivity]].
  unfold is_eligible_for_resubmission. simpl submitted_at. simpl is_none.
  destruct (bool_decide _); simpl; [|eauto].
  destruct (bool_decide _); eauto.
Qed.

(** A denied beta item dated "09/07/2025". *)
Lemma unparseable_date_is_ineligible_witness :
  exists c,
    normalize_record bad_date_record "beta"
    = (Ok c, ["Invalid date format for claim " +:+ claim_id c
              +:+ ": " +:+ "09/07/2025"])
    /\ submitted_at c = VNone
    /\ (exists reason,
          is_eligible_for_resubmission c default_today = Ok (false, reason))
    /\ (status c = "denied" -> patient_id c <> "unknown" ->
        is_eligible_for_resubmission c default_today
        = Ok (false, "Invalid submitted date")).
Proof.
  apply (unparseable_date_is_ineligible bad_date_record "beta" default_today
           "09/07/2025" ValueError); vm_compute; reflexivity.
Defined.

(** X3. The text fields of every normalized claim carry no white space at
    either end, the status is in lower case, and the source tag is the one
    passed in. *)
Theorem normalized_fields_trimmed (r : gmap string value) (src : string) :
  exists c log,
    normalize_record r src = (Ok c, log)
    /\ trimmed (claim_id c) /\ trimmed (patient_id c)
    /\ trimmed (procedure_code c) /\ trimmed (denial_reason c)
    /\ trimmed (status c) /\ lower (status c) = status c
    /\ source_system c = src.
Proof.
  destruct (normalize_record_total r src) as (v & log & E).
  exists (set_submitted_at (initial_claim r src) v), log.
  split; [exact E|].
  destruct (initial_claim_stripped r src) as (S1 & S2 & S3 & S4 & S5).
  unfold trimmed. cbn [claim_id patient_id procedure_code denial_reason
                       status source_system set_submitted_at].
  repeat split; try assumption.
  - unfold initial_claim; cbn [status].
    destruct (negb _); [apply strip_idem|reflexivity].
  - unfold initial_claim; cbn [status].
    destruct (negb _); [|reflexivity].
    now rewrite lower_strip, lower_idem.
Qed.

(** X4. A record whose status is absent, null or NaN gets the status
    "unknown" and is excluded with "Status not denied", whatever its other
    fields hold and whatever the reference date. *)
Theorem missing_status_excluded (r : gmap string value) (src : string)
    (today : date) :
  isna (get r "status") = true ->
  exists c log,
    normalize_record r src = (Ok c, log)
    /\ status c = "unknown"
    /\ is_eligible_for_resubmission c today = Ok (false, "Status not denied").
Proof.
  intros H. destruct (normalize_record_total r src) as (v & log & E).
  exists (set_submitted_at (initial_claim r src) v), log.
  split; [exact E|].
  assert (S : status (set_submitted_at (initial_claim r src) v) = "unknown").
  { unfold initial_claim; cbn [status set_submitted_at]. now rewrite H. }
  split; [exact S|].
  apply status_not_denied. rewrite S. discriminate.
Qed.

(** The sample row A125 with its status cell left empty. *)
Lemma missing_status_excluded_witness :
  exists c log,
    normalize_record (<["status" := VNaN]> A125) "alpha" = (Ok c, log)
    /\ status c = "unknown"
    /\ is_eligible_for_resubmission c default_today
       = Ok (false, "Status not denied").
Proof.
  apply (missing_status_excluded (<["status" := VNaN]> A125) "alpha"
           default_today).
  reflexivity.
Defined.

(** X5. The denial reason is "unknown" exactly in the null cases: when the
    value found under [denial_reason], or else under [error_msg], is null
    or NaN the field is "unknown", and otherwise it is the stripped text of
    that value. The texts "None" and "nan" never come from a missing
    reason. *)
Theorem denial_reason_null_is_unknown (r : gmap string value)
    (src : string) :
  exists c log,
    normalize_record r src = (Ok c, log)
    /\ let v := por (get r "denial_reason") (get r "error_msg") in
       (isna v = true -> denial_reason c = "unknown")
       /\ (isna v = false -> denial_reason c = strip (str v)).
Proof.
  destruct (normalize_record_total r src) as (v & log & E).
  exists (set_submitted_at (initial_claim r src) v), log.
  split; [exact E|].
  unfold initial_claim; cbn [denial_reason set_submitted_at].
  split; intros H; rewrite H; [reflexivity|]. cbn [negb].
  do 2 f_equal. unfold por, get, get_default in *.
  destruct (truthy _); [reflexivity|].
  destruct (r !! "error_msg"); [reflexivity|discriminate H].
Qed.

(** X6. A record with no usable patient id, that is, nothing truthy under
    [patient_id] and no [member] key, is normalized with patient id
    "unknown" and is never eligible: a denied one is excluded with
    "Patient ID is null". *)
Theorem absent_patient_flagged (r : gmap string value) (src : string)
    (today : date) :
  truthy (get r "patient_id") = false ->
  r !! "member" = None ->
  exists c log,
    normalize_record r src = (Ok c, log)
    /\ patient_id c = "unknown"
    /\ (status c = "denied" ->
        is_eligible_for_resubmission c today
        = Ok (false, "Patient ID is null"))
    /\ (status c <> "denied" ->
        is_eligible_for_resubmission c today
        = Ok (false, "Status not denied")).
Proof.
  intros Hp Hm. destruct (normalize_record_total r src) as (v & log & E).
  exists (set_submitted_at (initial_claim r src) v), log.
  split; [exact E|].
  assert (P : patient_id (set_submitted_at (initial_claim r src) v)
              = "unknown").
  { unfold initial_claim, por, get_default;
      cbn [patient_id set_submitted_at].
    now rewrite Hp, Hm. }
  split; [exact P|].
  split; intros Hs;
    [now apply patient_unknown|now apply status_not_denied].
Qed.

(** A denied alpha row whose patient id is the number zero. *)
Lemma absent_patient_flagged_witness :
  exists c log,
    normalize_record (<["patient_id" := VInt 0]> A123) "alpha" = (Ok c, log)
    /\ patient_id c = "unknown"
    /\ (status c = "denied" ->
        is_eligible_for_resubmission c default_today
        = Ok (false, "Patient ID is null"))
    /\ (status c <> "denied" ->
        is_eligible_for_resubmission c default_today
        = Ok (false, "Status not denied")).
Proof.
  apply (absent_patient_flagged (<["patient_id" := VInt 0]> A123) "alpha"
           default_today); reflexivity.
Defined.

(** X7. The classifier reads back the date the normalizer wrote: when the
    source date is text that parses to the timestamp [dt], the date the
    window is computed from is the calendar date of [dt]; the time of day
    and the UTC offset play no part. *)
Theorem classifier_reads_normalized_date (r : gmap string value)
    (src : string) (s : string) (dt : datetime) :
  source_date r = VStr s ->
  parse_source_date s = Ok dt ->
  exists c,
    normalize_record r src = (Ok c, [])
    /\ fromisoformat_date (submitted_at c) = Ok (dt_date dt)
    /\ forall today,
         status c = "denied" -> patient_id c <> "unknown" ->
         is_eligible_for_resubmission c today
         = if days_between today (dt_date dt) <=? 7
           then Ok (false, "Submitted less than or equal to 7 days ago")
           else Ok (reason_verdict (denial_reason c)).
Proof.
  intros Hs Hp.
  destruct (normalize_record_outcome r src) as (v & log & E & N).
  cbv zeta in E, N.
  change (submitted_at (initial_claim r src)) with (source_date r) in N.
  rewrite Hs, normalize_date_str, Hp in N. simpl in N.
  destruct N as [-> ->].
  eexists. split; [exact E|].
  assert (Hv : valid_date (dt_date dt) = true).
  { unfold parse_source_date in Hp. destruct (contains "T" s);
      [eapply fromisoformat_valid|eapply strptime_valid]; exact Hp. }
  assert (D : fromisoformat_date
                (submitted_at
                   (set_submitted_at (initial_claim r src)
                      (VStr (isoformat (dt_date dt)))))
              = Ok (dt_date dt)).
  { apply fromisoformat_date_isoformat, Hv. }
  split; [exact D|].
  intros today H1 H2. now apply date_window.
Qed.

(** The sample item B987 stamped late in the evening, UTC. *)
Lemma classifier_reads_normalized_date_witness :
  exists c,
    normalize_record (<["date" := VStr "2025-07-03T23:30:00Z"]> B987) "beta"
    = (Ok c, [])
    /\ fromisoformat_date (submitted_at c) = Ok (mkdate 2025 7 3)
    /\ forall today,
         status c = "denied" -> patient_id c <> "unknown" ->
         is_eligible_for_resubmission c today
         = if days_between today (mkdate 2025 7 3) <=? 7
           then Ok (false, "Submitted less than or equal to 7 days ago")
           else Ok (reason_verdict (denial_reason c)).
Proof.
  apply (classifier_reads_normalized_date
           (<["date" := VStr "2025-07-03T23:30:00Z"]> B987) "beta"
           "2025-07-03T23:30:00Z"
           (mkdatetime (mkdate 2025 7 3) 23 30 0 0 (Some 0)));
    vm_compute; reflexivity.
Defined.

(** * Further properties: the classifier's verdicts *)

Section Verdicts.

Lemma reason_verdict_true reason text :
  reason_verdict reason = (true, text) <->
  ((reason ∈ retryable_reasons) /\ text = reason)
  \/ ((reason ∉ retryable_reasons) /\ (reason ∉ non_retryable_reasons)
      /\ contains "incorrect procedure" (lower reason) = false
      /\ contains "form incomplete" (lower reason) = true
      /\ text = "Inferred retryable: " +:+ reason).
Proof.
  unfold reason_verdict, mock_llm_classifier. cbn [isna str].
  destruct (bool_decide (reason ∈ retryable_reasons)) eqn:R.
  { apply bool_decide_eq_true in R. split.
    - intros [= <-]. now left.
    - intros [[_ ->]|[N _]]; [reflexivity|contradiction]. }
  apply bool_decide_eq_false in R.
  destruct (bool_decide (reason ∈ non_retryable_reasons)) eqn:N.
  { apply bool_decide_eq_true in N. split; [discriminate|].
    intros [[I _]|(_ & I & _)]; contradiction. }
  apply bool_decide_eq_false in N.
  destruct (contains "incorrect procedure" (lower reason)).
  { split; [discriminate|].
    intros [[I _]|(_ & _ & I & _)]; [contradiction|discriminate]. }
  destruct (contains "form incomplete" (lower reason)).
  - split.
    + intros [= <-]. right. now repeat split.
    + intros [[I _]|(_ & _ & _ & _ & ->)]; [contradiction|reflexivity].
  - split.
    + destruct (contains "not billable" (lower reason)); discriminate.
    + intros [[I _]|(_ & _ & _ & I & _)]; [contradiction|discriminate].
Qed.

(** The ways the classifier returns: one of the four early verdicts, each
    ineligible, or the verdict of the denial reason. *)
Lemma classifier_returns c today verdict :
  is_eligible_for_resubmission c today = Ok verdict ->
  fst verdict = false
  \/ (passes_guards c today /\ verdict = reason_verdict (denial_reason c)).
Proof.
  unfold is_eligible_for_resubmission.
  destruct (bool_decide (status c = "denied")) eqn:S; simpl;
    [|intros [= <-]; now left].
  destruct (bool_decide (patient_id c = "unknown")) eqn:P;
    [intros [= <-]; now left|].
  destruct (is_none (submitted_at c)); [intros [= <-]; now left|].
  destruct (fromisoformat_date (submitted_at c)) as [d|e] eqn:D;
    [simpl|discriminate].
  destruct (Z.leb_spec (days_between today d) 7);
    intros [= <-]; [now left|right].
  apply bool_decide_eq_true in S. apply bool_decide_eq_false in P.
  split; [|reflexivity]. split; [exact S|]. split; [exact P|].
  exists d. split; [exact D|lia].
Qed.

End Verdicts.

(** X8. The classifier declares a claim eligible in exactly two cases, both
    past the four guards: the denial reason is one of the three retryable
    reasons and is returned as it is, or it is in neither fixed set, its
    lower-cased text holds "form incomplete" and not "incorrect procedure",
    and it is returned behind "Inferred retryable: ". *)
Theorem eligible_iff (c : NormalizedClaim) (today : date) (text : string) :
  is_eligible_for_resubmission c today = Ok (true, text) <->
  passes_guards c today
  /\ (((denial_reason c ∈ retryable_reasons) /\ text = denial_reason c)
      \/ ((denial_reason c ∉ retryable_reasons)
          /\ (denial_reason c ∉ non_retryable_reasons)
          /\ contains "incorrect procedure" (lower (denial_reason c)) = false
          /\ contains "form incomplete" (lower (denial_reason c)) = true
          /\ text = "Inferred retryable: " +:+ denial_reason c)).
Proof.
  split.
  - intros H. destruct (classifier_returns c today _ H) as [F|[G V]];
      [discriminate F|].
    split; [exact G|]. now apply reason_verdict_true.
  - intros [G V]. rewrite (passes_guards_verdict c today G).
    f_equal. now apply reason_verdict_true.
Qed.

(** X9. Eligibility lasts: a claim that is eligible at one reference date
    is eligible, with the same reason, at every later one. *)
Theorem eligibility_persists (c : NormalizedClaim) (today later : date)
    (text : string) :
  is_eligible_for_resubmission c today = Ok (true, text) ->
  toordinal today <= toordinal later ->
  is_eligible_for_resubmission c later = Ok (true, text).
Proof.
  intros H Hle.
  destruct (classifier_returns c today _ H) as [F|[G V]]; [discriminate F|].
  destruct G as (S & P & d & D & W).
  rewrite (passes_guards_verdict c later).
  - now rewrite <- V.
  - split; [exact S|]. split; [exact P|]. exists d. split; [exact D|].
    unfold days_between in *. lia.
Qed.

(** The sample claim A123, eligible on 30 July 2025, a month later. *)
Lemma eligibility_persists_witness :
  is_eligible_for_resubmission claim_A123 (mkdate 2025 8 30)
  = Ok (true, "Missing modifier").
Proof.
  apply (eligibility_persists claim_A123 default_today (mkdate 2025 8 30));
    vm_compute; [reflexivity|discriminate].
Defined.

(** When the classifier raises: past the first three rules, on a date
    that [datetime.fromisoformat] refuses. *)
Lemma classifier_raises c today e :
  is_eligible_for_resubmission c today = Raise e <->
  status c = "denied" /\ patient_id c <> "unknown"
  /\ is_none (submitted_at c) = false
  /\ fromisoformat_date (submitted_at c) = Raise e.
Proof.
  unfold is_eligible_for_resubmission.
  destruct (bool_decide (status c = "denied")) eqn:S; cbn [negb].
  2:{ apply bool_decide_eq_false in S. split; [discriminate|].
      intros (S' & _). contradiction. }
  apply bool_decide_eq_true in S.
  destruct (bool_decide (patient_id c = "unknown")) eqn:P.
  { apply bool_decide_eq_true in P. split; [discriminate|].
    intros (_ & P' & _). contradiction. }
  apply bool_decide_eq_false in P.
  destruct (is_none (submitted_at c)).
  { split; [discriminate|]. intros (_ & _ & F & _). discriminate F. }
  destruct (fromisoformat_date (submitted_at c)) as [d|e'];
    cbn [mbind result_bind bind].
  - split; [destruct (_ <=? _); discriminate|].
    intros (_ & _ & _ & F). discriminate F.
  - split; [intros [= <-]; now repeat split|].
    intros (_ & _ & _ & [= <-]). reflexivity.
Qed.

(** X10. On a claim that [normalize_record] has produced the classifier
    raises in one case only: the claim is denied, its patient id is not
    "unknown", and its [submitted_at] is neither text nor null, which is so
    exactly when the record's source date was neither; what is raised is
    then a [TypeError]. *)
Theorem normalized_claim_raises_iff (r : gmap string value) (src : string)
    (c : NormalizedClaim) (log : list string) (today : date) (e : exn) :
  normalize_record r src = (Ok c, log) ->
  (is_eligible_for_resubmission c today = Raise e <->
   status c = "denied" /\ patient_id c <> "unknown"
   /\ text_or_null (source_date r) = false /\ e = TypeError)
  /\ (text_or_null (source_date r) = false -> submitted_at c = source_date r).
Proof.
  intros E. rewrite classifier_raises.
  destruct (normalize_record_inv r src c log E) as (v & -> & H).
  cbn [status patient_id submitted_at set_submitted_at].
  unfold text_or_null.
  destruct (normalize_date_cases (source_date r))
    as [(d & Hv & Hs & N)|[(Hs & N)|(Hs & N)]];
    rewrite N in H; destruct H as [-> _]; rewrite Hs; cbn [orb].
  - (* text that parsed *)
    rewrite (fromisoformat_date_isoformat d Hv).
    split; [|discriminate].
    split; intros (_ & _ & F); [discriminate (proj2 F)|
                                discriminate (proj1 F)].
  - (* text that did not parse: null *)
    split; [|discriminate].
    split; intros (_ & _ & F); [discriminate (proj1 F)|
                                discriminate (proj1 F)].
  - (* not text: kept as it is *)
    split; [|reflexivity].
    destruct (source_date r) as [|s|z|b|]; try discriminate Hs;
      cbn [is_none fromisoformat_date];
      (split;
       [intros (S & P & F & G); try discriminate F; injection G as <-
       |intros (S & P & F & G); try discriminate F; subst e];
       now repeat split).
Qed.

(** The sample row A123 with an empty date cell: the classifier raises. *)
Lemma normalized_claim_raises_iff_witness :
  let c := set_submitted_at claim_A123 VNaN in
  (is_eligible_for_resubmission c default_today = Raise TypeError <->
   status c = "denied" /\ patient_id c <> "unknown"
   /\ text_or_null (source_date nan_date_record) = false
   /\ TypeError = TypeError)
  /\ (text_or_null (source_date nan_date_record) = false ->
      submitted_at c = source_date nan_date_record).
Proof.
  apply (normalized_claim_raises_iff nan_date_record "alpha" _ []
           default_today TypeError).
  vm_compute. reflexivity.
Defined.

(** * Further properties: the driver *)

Open Scope list_scope.

Section Driver.

Lemma claim_of_total src row :
  exists v, claim_of src row
            = Some (set_submitted_at (initial_claim row src) v).
Proof.
  destruct (normalize_record_total row src) as (v & log & E).
  exists v. unfold claim_of. now rewrite E.
Qed.

Lemma claims_of_cons src row rows :
  exists c, claim_of src row = Some c
            /\ claims_of src (row :: rows) = c :: claims_of src rows.
Proof.
  destruct (claim_of_total src row) as (v & E).
  eexists. split; [exact E|]. unfold claims_of. simpl. now rewrite E.
Qed.

Lemma claims_of_length src rows : length (claims_of src rows) = length rows.
Proof.
  induction rows as [|row rows IH]; [reflexivity|].
  destruct (claims_of_cons src row rows) as (c & _ & ->).
  simpl. now rewrite IH.
Qed.

Lemma claims_of_source src rows :
  Forall (fun c => source_system c = src) (claims_of src rows).
Proof.
  induction rows as [|row rows IH]; [constructor|].
  destruct (claims_of_cons src row rows) as (c & E & ->).
  constructor; [|exact IH].
  destruct (claim_of_total src row) as (v & E'). rewrite E' in E.
  now injection E as <-.
Qed.

Lemma ingest_one_spec src st row :
  ingest_one src st row
  = mkstate (st_claims st ++ claims_of src [row]) (st_failed st)
      (st_log st ++ map LogWarning (warnings_of src [row])).
Proof.
  destruct (normalize_record_total row src) as (v & log & E).
  unfold ingest_one, claims_of, warnings_of, claim_of. simpl.
  rewrite E. simpl. now rewrite app_nil_r.
Qed.

(** The ingestion loop as a whole: one claim per row, in order, no failed
    record, and the warnings of the rows. *)
Lemma ingest_spec src rows st :
  ingest src rows st
  = mkstate (st_claims st ++ claims_of src rows) (st_failed st)
      (st_log st ++ map LogWarning (warnings_of src rows)).
Proof.
  revert st. induction rows as [|row rows IH]; intros st.
  - destruct st. simpl. now rewrite !app_nil_r.
  - change (ingest src (row :: rows) st)
      with (ingest src rows (ingest_one src st row)).
    rewrite IH, ingest_one_spec. cbn [st_claims st_failed st_log].
    destruct (claims_of_cons src row rows) as (c & E & ->).
    unfold claims_of at 1. simpl. rewrite E.
    unfold warnings_of. simpl. rewrite app_nil_r, map_app.
    now rewrite <- !app_assoc.
Qed.

Lemma partition_one_ok acc c verdict :
  is_eligible_for_resubmission c default_today = Ok verdict ->
  partition_one acc c
  = Ok (fst acc ++ omap eligible_row_of [c],
        snd acc ++ omap excluded_row_of [c]).
Proof.
  intros H. unfold partition_one, eligible_row_of, excluded_row_of. simpl.
  rewrite H. destruct verdict as [[] reason]; simpl;
    now rewrite app_nil_r.
Qed.

Lemma partition_one_raise acc c e :
  is_eligible_for_resubmission c default_today = Raise e ->
  partition_one acc c = Raise e.
Proof. intros H. unfold partition_one. now rewrite H. Qed.

Lemma omap_cons_app {A B} (f : A -> option B) x l :
  omap f (x :: l) = omap f [x] ++ omap f l.
Proof. simpl. now destruct (f x). Qed.

(** The partition loop: when every claim gets a verdict, the two lists in
    claim order; otherwise the exception of some claim. *)
Lemma partition_claims_spec claims acc :
  match partition_claims claims acc with
  | Ok res =>
      Forall (fun c => exists verdict,
                is_eligible_for_resubmission c default_today = Ok verdict)
        claims
      /\ res = (fst acc ++ omap eligible_row_of claims,
                snd acc ++ omap excluded_row_of claims)
  | Raise e =>
      Exists (fun c => is_eligible_for_resubmission c default_today = Raise e)
        claims
  end.
Proof.
  revert acc. induction claims as [|c claims IH]; intros acc.
  - simpl. split; [constructor|]. destruct acc. now rewrite !app_nil_r.
  - cbn [partition_claims].
    destruct (is_eligible_for_resubmission c default_today) as [v|e] eqn:V.
    + rewrite (partition_one_ok acc c v V). cbn [mbind result_bind bind].
      specialize (IH (fst acc ++ omap eligible_row_of [c],
                      snd acc ++ omap excluded_row_of [c])).
      destruct (partition_claims claims _) as [res|e].
      * destruct IH as [F ->]. split; [constructor; eauto|].
        cbn [fst snd].
        rewrite (omap_cons_app eligible_row_of c claims),
          (omap_cons_app excluded_row_of c claims).
        now rewrite <- !app_assoc.
      * now apply Exists_cons_tl.
    + rewrite (partition_one_raise acc c e V). cbn [mbind result_bind bind].
      now apply Exists_cons_hd.
Qed.

Lemma partition_lengths_one c verdict :
  is_eligible_for_resubmission c default_today = Ok verdict ->
  (length (omap eligible_row_of [c])
   + length (omap excluded_row_of [c]) = 1)%nat.
Proof.
  intros V. cbn [omap list_omap]. unfold eligible_row_of, excluded_row_of.
  rewrite V. now destruct verdict as [[] reason].
Qed.

Lemma partition_lengths claims :
  Forall (fun c => exists verdict,
            is_eligible_for_resubmission c default_today = Ok verdict)
    claims ->
  (length (omap eligible_row_of claims)
   + length (omap excluded_row_of claims) = length claims)%nat.
Proof.
  induction 1 as [|c claims [verdict V] _ IH]; [reflexivity|].
  rewrite (omap_cons_app eligible_row_of), (omap_cons_app excluded_row_of).
  rewrite !length_app. pose proof (partition_lengths_one c verdict V).
  change (length (c :: claims)) with (S (length claims)). lia.
Qed.

Lemma claim_of_normalize src row c :
  claim_of src row = Some c ->
  exists log, normalize_record row src = (Ok c, log).
Proof.
  unfold claim_of.
  destruct (normalize_record row src) as [[c'|e] log]; [|discriminate].
  intros [= <-]. now exists log.
Qed.

(** The rows on whose claim the classifier raises. *)
Lemma claim_of_raises src row c e :
  claim_of src row = Some c ->
  is_eligible_for_resubmission c default_today = Raise e <->
  breaks_classifier src row = true /\ e = TypeError.
Proof.
  intros C. destruct (claim_of_normalize src row c C) as (log & E).
  destruct (normalize_record_inv row src c log E) as (v & -> & H).
  rewrite classifier_raises. unfold breaks_classifier, text_or_null.
  cbn [status patient_id submitted_at set_submitted_at].
  rewrite !andb_true_iff, !negb_true_iff, bool_decide_eq_true,
    bool_decide_eq_false.
  destruct (normalize_date_cases (source_date row))
    as [(d & Hv & Hs & N)|[(Hs & N)|(Hs & N)]];
    rewrite N in H; destruct H as [-> _]; rewrite Hs; cbn [orb].
  - rewrite (fromisoformat_date_isoformat d Hv).
    split; [intros (_ & _ & _ & F); discriminate F|
            intros ((_ & F) & _); discriminate F].
  - split; [intros (_ & _ & F & _); discriminate F|
            intros ((_ & F) & _); discriminate F].
  - destruct (source_date row) as [|s|z|b|]; try discriminate Hs;
      cbn [is_none fromisoformat_date];
      (split;
       [intros (S & P & F & G); try discriminate F; injection G as <-
       |intros ((S & F) & G); try discriminate F; subst e];
       tauto).
Qed.

Lemma claims_of_raise src rows e :
  Exists (fun c => is_eligible_for_resubmission c default_today = Raise e)
    (claims_of src rows)
  <-> existsb (breaks_classifier src) rows = true /\ e = TypeError.
Proof.
  induction rows as [|row rows IH].
  - split; [intros H; inversion H|intros [H _]; discriminate H].
  - destruct (claims_of_cons src row rows) as (c & C & ->).
    rewrite Exists_cons, IH, (claim_of_raises src row c e C).
    cbn [existsb]. rewrite orb_true_iff. tauto.
Qed.

(** [run_pipeline] in terms of the claims and warnings of its rows. *)
Lemma run_pipeline_spec alpha_rows beta_list :
  let claims := claims_of "alpha" alpha_rows ++ claims_of "beta" beta_list in
  let warnings :=
    map LogWarning
      (warnings_of "alpha" alpha_rows ++ warnings_of "beta" beta_list) in
  run_pipeline alpha_rows beta_list
  = match partition_claims claims ([], []) with
    | Raise e => mkrun (Raise e) warnings []
    | Ok (eligible, excluded) =>
        mkrun (Ok eligible)
          (warnings
           ++ [ metric "Total claims processed: " (length claims);
                metric "From alpha: " (count_source "alpha" claims);
                metric "From beta: " (count_source "beta" claims);
                metric "Flagged for resubmission: " (length eligible);
                metric "Excluded: " (length excluded) ])
          [("resubmission_candidates.json", EligibleJson eligible)]
    end.
Proof.
  intros claims warnings. unfold run_pipeline.
  rewrite !ingest_spec. cbn [st_claims st_failed st_log app].
  subst warnings. rewrite map_app. fold claims.
  destruct (partition_claims claims ([], [])) as [[eligible excluded]|e];
    reflexivity.
Qed.

Lemma count_source_all tag claims :
  Forall (fun c => source_system c = tag) claims ->
  count_source tag claims = length claims.
Proof.
  unfold count_source. induction 1 as [|c claims H _ IH]; [reflexivity|].
  simpl. rewrite (bool_decide_eq_true_2 _ H). simpl. now rewrite IH.
Qed.

Lemma count_source_none tag other claims :
  tag <> other ->
  Forall (fun c => source_system c = other) claims ->
  count_source tag claims = 0%nat.
Proof.
  intros N. unfold count_source.
  induction 1 as [|c claims H _ IH]; [reflexivity|].
  simpl. rewrite bool_decide_eq_false_2 by congruence. exact IH.
Qed.

Lemma count_source_app tag l1 l2 :
  count_source tag (l1 ++ l2)
  = (count_source tag l1 + count_source tag l2)%nat.
Proof. unfold count_source. now rewrite List.filter_app, length_app. Qed.

End Driver.

(** X11. No record is ever rejected: whatever the rows hold, the driver
    logs no error, and the only file it writes is
    [resubmission_candidates.json], holding the list it returns; when the
    classifier raises it writes nothing. The rejection log is never
    produced. *)
Theorem no_record_rejected (alpha_rows beta_list : list (gmap string value)) :
  let run := run_pipeline alpha_rows beta_list in
  (forall source row e, ~ In (LogError source row e) (logged run))
  /\ match returned run with
     | Ok eligible =>
         written run
         = [("resubmission_candidates.json", EligibleJson eligible)]
     | Raise _ => written run = []
     end.
Proof.
  cbv zeta. rewrite run_pipeline_spec. cbv zeta.
  destruct (partition_claims _ _) as [[eligible excluded]|e];
    cbn [logged returned written]; (split; [|reflexivity]);
    intros source row e'; rewrite ?in_app_iff, in_map_iff;
    intros H; repeat destruct H as [H|H]; try discriminate H;
    try contradiction; destruct H as (w & H & _); discriminate H.
Qed.

(** X12. When the driver returns, its five counters add up: the total is
    the number of rows, the per-source counts are the numbers of alpha and
    of beta rows, and flagged plus excluded is the total. Before the
    counters the log holds the date warnings of the rows, alpha first, and
    nothing else. *)
Theorem counters_add_up (alpha_rows beta_list : list (gmap string value))
    (eligible : list eligible_row) :
  returned (run_pipeline alpha_rows beta_list) = Ok eligible ->
  exists excluded : nat,
    logged (run_pipeline alpha_rows beta_list)
    = map LogWarning
        (warnings_of "alpha" alpha_rows ++ warnings_of "beta" beta_list)
      ++ [ metric "Total claims processed: "
             (length alpha_rows + length beta_list);
           metric "From alpha: " (length alpha_rows);
           metric "From beta: " (length beta_list);
           metric "Flagged for resubmission: " (length eligible);
           metric "Excluded: " excluded ]
    /\ (length eligible + excluded
        = length alpha_rows + length beta_list)%nat.
Proof.
  rewrite run_pipeline_spec. cbv zeta.
  pose proof (partition_claims_spec
                (claims_of "alpha" alpha_rows ++ claims_of "beta" beta_list)
                ([], [])) as P.
  destruct (partition_claims _ _) as [[el ex]|e]; [|discriminate].
  cbn [returned logged]. intros [= <-].
  destruct P as [F [= -> ->]]. cbn [fst snd app].
  exists (length (omap excluded_row_of
                    (claims_of "alpha" alpha_rows
                     ++ claims_of "beta" beta_list))).
  rewrite (partition_lengths _ F), !count_source_app, !length_app,
    !claims_of_length.
  rewrite (count_source_all "alpha" _ (claims_of_source "alpha" alpha_rows)),
    (count_source_all "beta" _ (claims_of_source "beta" beta_list)),
    (count_source_none "alpha" "beta" _ ltac:(discriminate)
       (claims_of_source "beta" beta_list)),
    (count_source_none "beta" "alpha" _ ltac:(discriminate)
       (claims_of_source "alpha" alpha_rows)),
    !claims_of_length.
  rewrite Nat.add_0_r. split; reflexivity.
Qed.

(** The sample batch: nine rows, four flagged, five excluded. *)
Lemma counters_add_up_witness :
  exists excluded : nat,
    logged (run_pipeline alpha_sample beta_sample)
    = map LogWarning
        (warnings_of "alpha" alpha_sample ++ warnings_of "beta" beta_sample)
      ++ [ metric "Total claims processed: "
             (length alpha_sample + length beta_sample);
           metric "From alpha: " (length alpha_sample);
           metric "From beta: " (length beta_sample);
           metric "Flagged for resubmission: " (length sample_eligible);
           metric "Excluded: " excluded ]
    /\ (length sample_eligible + excluded
        = length alpha_sample + length beta_sample)%nat.
Proof.
  apply (counters_add_up alpha_sample beta_sample sample_eligible).
  vm_compute. reflexivity.
Defined.

(** X13. The driver raises exactly when some row breaks the classifier: a
    row whose claim is denied, has a patient id other than "unknown", and
    whose source date is neither text nor null, such as a denied alpha row
    with an empty date cell. What is raised is a [TypeError], and in every
    other case the driver returns its list. *)
Theorem driver_raises_iff (alpha_rows beta_list : list (gmap string value)) :
  let broken :=
    existsb (breaks_classifier "alpha") alpha_rows
    || existsb (breaks_classifier "beta") beta_list in
  (forall e,
      returned (run_pipeline alpha_rows beta_list) = Raise e <->
      broken = true /\ e = TypeError)
  /\ (broken = false ->
      exists eligible,
        returned (run_pipeline alpha_rows beta_list) = Ok eligible).
Proof.
  cbv zeta.
  assert (R : forall e,
             returned (run_pipeline alpha_rows beta_list) = Raise e <->
             (existsb (breaks_classifier "alpha") alpha_rows
              || existsb (breaks_classifier "beta") beta_list = true)
             /\ e = TypeError).
  { intros e. rewrite run_pipeline_spec. cbv zeta.
    pose proof (partition_claims_spec
                  (claims_of "alpha" alpha_rows
                   ++ claims_of "beta" beta_list) ([], [])) as P.
    rewrite orb_true_iff.
    destruct (partition_claims _ _) as [[el ex]|e']; cbn [returned].
    - split; [discriminate|]. intros [B ->]. exfalso.
      destruct P as [F _]. rewrite Forall_app in F. destruct F as [Fa Fb].
      rewrite Forall_forall in Fa, Fb.
      destruct B as [B|B];
        [pose proof (proj2 (claims_of_raise "alpha" alpha_rows TypeError)
                       (conj B eq_refl)) as X
        |pose proof (proj2 (claims_of_raise "beta" beta_list TypeError)
                       (conj B eq_refl)) as X];
        apply Exists_exists in X as (c & I & V);
        [destruct (Fa c I) as (v & V')|destruct (Fb c I) as (v & V')];
        congruence.
    - rewrite Exists_app, !claims_of_raise in P.
      split.
      + intros [= <-]. destruct P as [[B ->]|[B ->]]; split; auto.
      + intros [_ ->]. destruct P as [[_ ->]|[_ ->]]; reflexivity. }
  split; [exact R|].
  intros B.
  destruct (returned (run_pipeline alpha_rows beta_list)) as [el|e];
    [eauto|].
  destruct (proj1 (R e) eq_refl) as [B' _]. congruence.
Qed.

(** A denied alpha row with an empty date cell stops the whole run. *)
Example empty_date_cell_stops_the_run :
  returned (run_pipeline (alpha_sample ++ [nan_date_record]) beta_sample)
  = Raise TypeError
  /\ written (run_pipeline (alpha_sample ++ [nan_date_record]) beta_sample)
     = [].
Proof. split; vm_compute; reflexivity. Qed.

(** X14. The list the driver returns holds one row for each claim the
    classifier, run at its default date, finds eligible, and no other: the
    rows stand in the order of the input, all alpha rows before all beta
    rows, and each carries the claim's id and source tag, the classifier's
    reason, and the recommendation built from that reason. *)
Theorem candidates_in_row_order
    (alpha_rows beta_list : list (gmap string value))
    (eligible : list eligible_row) :
  returned (run_pipeline alpha_rows beta_list) = Ok eligible ->
  eligible
  = omap eligible_row_of (claims_of "alpha" alpha_rows)
    ++ omap eligible_row_of (claims_of "beta" beta_list).
Proof.
  rewrite run_pipeline_spec. cbv zeta.
  pose proof (partition_claims_spec
                (claims_of "alpha" alpha_rows ++ claims_of "beta" beta_list)
                ([], [])) as P.
  destruct (partition_claims _ _) as [[el ex]|e]; [|discriminate].
  cbn [returned]. intros [= <-]. destruct P as [_ [= -> _]].
  cbn [fst app]. apply omap_app.
Qed.

(** The sample batch and its four candidates. *)
Lemma candidates_in_row_order_witness :
  sample_eligible
  = omap eligible_row_of (claims_of "alpha" alpha_sample)
    ++ omap eligible_row_of (claims_of "beta" beta_sample).
Proof.
  apply (candidates_in_row_order alpha_sample beta_sample sample_eligible).
  vm_compute. reflexivity.
Defined.

(** X15. The fixed sets are matched with case: a denial reason that is a
    retryable reason in all but the case of its letters is not retryable.
    Past the four guards it falls through to the heuristic, which has no
    phrase for it, and the claim is excluded. *)
Theorem retryable_reasons_match_case (c : NormalizedClaim) (today : date) :
  passes_guards c today ->
  denial_reason c ∉ retryable_reasons ->
  In (lower (denial_reason c))
     [lower "Missing modifier"; lower "Incorrect NPI";
      lower "Prior auth required"] ->
  is_eligible_for_resubmission c today
  = Ok (false, "Inferred non-retryable: " +:+ denial_reason c).
Proof.
  intros G R L. rewrite (passes_guards_verdict c today G).
  unfold reason_verdict, mock_llm_classifier. cbn [isna str].
  rewrite (bool_decide_eq_false_2 _ R).
  destruct (bool_decide (denial_reason c ∈ non_retryable_reasons)) eqn:N.
  { apply bool_decide_eq_true in N. exfalso.
    unfold non_retryable_reasons in N.
    apply elem_of_union in N as [N|N]; apply elem_of_singleton in N;
      rewrite N in L; vm_compute in L; intuition discriminate. }
  simpl in L.
  destruct L as [<-|[<-|[<-|[]]]]; reflexivity.
Qed.

(** The sample claim A123 with its reason typed in lower case. *)
Lemma retryable_reasons_match_case_witness :
  is_eligible_for_resubmission
    (with_reason claim_A123 "missing modifier") default_today
  = Ok (false, "Inferred non-retryable: missing modifier").
Proof.
  apply (retryable_reasons_match_case
           (with_reason claim_A123 "missing modifier") default_today).
  - passes_by_computation (mkdate 2025 7 1).
  - apply (bool_decide_eq_false_1 _). vm_compute. reflexivity.
  - left. reflexivity.
Defined.

(** X16. [normalize_record] reads ten keys and no other: adding, changing
    or removing any other field of a record changes neither the claim nor
    the warnings. *)
Theorem other_fields_ignored (r : gmap string value) (src : string)
    (k : string) (v : value) :
  ~ In k keys_read ->
  normalize_record (<[k := v]> r) src = normalize_record r src
  /\ normalize_record (delete k r) src = normalize_record r src.
Proof.
  intros K.
  assert (I : forall k', In k' keys_read -> (<[k := v]> r) !! k' = r !! k').
  { intros k' H. apply lookup_insert_ne. intros ->. contradiction. }
  assert (D : forall k', In k' keys_read -> delete k r !! k' = r !! k').
  { intros k' H. apply lookup_delete_ne. intros ->. contradiction. }
  unfold normalize_record, date_warning, initial_claim, get, get_default.
  cbn [submitted_at claim_id].
  split; [rewrite !I|rewrite !D]; try reflexivity;
    unfold keys_read; simpl; tauto.
Qed.

(** The [code] key of the sample item B988. *)
Lemma other_fields_ignored_witness :
  normalize_record (<["code" := VStr "00000"]> B988) "beta"
  = normalize_record B988 "beta"
  /\ normalize_record (delete "code" B988) "beta"
     = normalize_record B988 "beta".
Proof.
  apply (other_fields_ignored B988 "beta" "code" (VStr "00000")).
  unfold keys_read. simpl. intuition discriminate.
Defined.
